(** * Earnings Beat Scanner: a shallow embedding of [earnings_scanner.py]

    The scanner pulls per-ticker data from a market-data provider, scores each
    candidate with six evaluators, sums the scores and alerts on every
    candidate at or above the threshold.

    Conventions of the embedding:
    - Python [int] is [Z];
    - the floats of the suggested play are binary64 numbers, with the IEEE
      operations of the Standard Library's [SpecFloat] at precision 53;
    - the prices of a history and the surprise percentages are exact
      rationals [Q], and a percentage computed from them by a numpy
      division, which may be infinite or undefined, is an [npfloat]; the
      rounding of these divisions is not modelled: what is proved of the
      momentum and sector scores holds wherever their comparisons fall,
      and the beat rate, a quotient of two counts of at most four, compares
      with 0.75 and 0.50 as its binary64 value does;
    - a provider attribute access ([stock.analysis], [stock.history(..)], ...)
      either raises or returns; a returned value may be [None];
    - [datetime.now()] is the parameter [now], a timestamp in seconds;
    - [print] and [time.sleep] have no effect on any value and are left out,
      except for the per-candidate log lines of [run_scan]. *)

From Stdlib Require Import ZArith QArith Qround Qabs List String Ascii Bool.
From Stdlib Require Import Lia.
From Stdlib Require Import Lqa SpecFloat.
From Stdlib Require Import Permutation Sorted.
Import ListNotations.

Open Scope Z_scope.

(** ** Python primitives *)

Module Py.

(** Exceptions: a computation returns a value or raises. *)
Inductive exc (A : Type) : Type :=
| Ok (a : A)
| Raise.
Arguments Ok {A} a.
Arguments Raise {A}.

Definition bind {A B} (m : exc A) (k : A -> exc B) : exc B :=
  match m with
  | Ok a => k a
  | Raise => Raise
  end.

(** [try: body except Exception: handler] for a body that returns. *)
Definition try_except {A} (body : exc A) (handler : A) : A :=
  match body with
  | Ok a => a
  | Raise => handler
  end.

(** [d[key]] on a key that may be absent: a [KeyError] when it is. *)
Definition getitem {A} (o : option A) : exc A :=
  match o with
  | Some a => Ok a
  | None => Raise
  end.

(** [d.get(key, default)]. *)
Definition get {A} (o : option A) (default : A) : A :=
  match o with
  | Some a => a
  | None => default
  end.

(** Strict comparison of two rationals, [x < y]. *)
Definition Qltb (x y : Q) : bool := negb (Qle_bool y x).

(** *** Binary64, Python's [float] *)

Definition float : Type := spec_float.

(** [float(z)] for an integer [z]. *)
Definition of_int (z : Z) : float := binary_normalize 53 1024 z 0 false.

Definition fadd : float -> float -> float := SFadd 53 1024.
Definition fsub : float -> float -> float := SFsub 53 1024.
Definition fmul : float -> float -> float := SFmul 53 1024.

(** The IEEE quotient. *)
Definition fdiv : float -> float -> float := SFdiv 53 1024.

(** [x < y]; false when either is NaN. *)
Definition fltb : float -> float -> bool := SFltb.

(** [x / y] in Python: a [ZeroDivisionError] on a zero divisor. *)
Definition truediv (x y : float) : exc float :=
  match y with
  | S754_zero _ => Raise
  | _ => Ok (fdiv x y)
  end.

(** A zero or a finite number: neither an infinity nor NaN. *)
Definition is_finite (x : float) : bool :=
  match x with
  | S754_zero _ | S754_finite _ _ _ => true
  | _ => false
  end.

(** The exact value of a finite float. *)
Definition value (x : float) : Q :=
  match x with
  | S754_finite s m e =>
      let n := if s then Zneg m else Zpos m in
      match e with
      | Zneg k => n # (2 ^ k)
      | _ => inject_Z (n * 2 ^ e)
      end
  | _ => 0%Q
  end.

(** [int(x)]: truncation toward zero; an [OverflowError] on an infinity
    and a [ValueError] on NaN. *)
Definition int_of_float (x : float) : exc Z :=
  match x with
  | S754_zero _ => Ok 0
  | S754_finite s m e =>
      let n :=
        match e with
        | Zneg k => Zpos m / 2 ^ Zpos k
        | _ => Zpos m * 2 ^ e
        end in
      Ok (if s then - n else n)
  | _ => Raise
  end.

(** The nearest integer, ties to even: how a [:.2f] or [:.1f] format
    rounds the exact value it prints. *)
Definition round_half_even (q : Q) : Z :=
  let f := Qfloor q in
  match Qcompare (q - inject_Z f) (1 # 2) with
  | Lt => f
  | Gt => f + 1
  | Eq => if Z.even f then f else f + 1
  end.

(** [f"{x:.2f}"] in hundredths and [f"{x:.1f}"] in tenths, for a finite
    [x]. *)
Definition shown_cents (x : float) : Z := round_half_even (value x * 100).

Definition shown_tenths (x : float) : Z := round_half_even (value x * 10).

(** The result of a numpy float division: finite, infinite or undefined
    (numpy warns on a zero divisor, it does not raise). *)
Inductive npfloat : Type :=
| Fin (q : Q)
| PosInf
| NegInf
| NaN.

Definition np_div (a b : Q) : npfloat :=
  if Qeq_bool b 0 then
    if Qltb 0 a then PosInf else if Qltb a 0 then NegInf else NaN
  else Fin (a / b).

(** Multiplication by a positive finite constant. *)
Definition np_scale (x : npfloat) (c : Q) : npfloat :=
  match x with
  | Fin q => Fin (q * c)
  | other => other
  end.

Definition np_sub (x y : npfloat) : npfloat :=
  match x, y with
  | Fin a, Fin b => Fin (a - b)
  | NaN, _ | _, NaN => NaN
  | PosInf, PosInf | NegInf, NegInf => NaN
  | PosInf, _ | _, NegInf => PosInf
  | NegInf, _ | _, PosInf => NegInf
  end.

(** [x > c] for a finite constant [c]; every comparison with NaN is false. *)
Definition np_gt (x : npfloat) (c : Q) : bool :=
  match x with
  | Fin q => Qltb c q
  | PosInf => true
  | NegInf | NaN => false
  end.

(** ASCII lower-casing, as used by case-insensitive matching. *)
Definition lower (c : ascii) : ascii :=
  let n := nat_of_ascii c in
  if andb (Nat.leb 65 n) (Nat.leb n 90) then ascii_of_nat (n + 32) else c.

Fixpoint prefix_ci (pat s : string) : bool :=
  match pat, s with
  | EmptyString, _ => true
  | String _ _, EmptyString => false
  | String a pat', String b s' =>
      andb (Ascii.eqb (lower a) (lower b)) (prefix_ci pat' s')
  end.

(** [re.search(pat, s, re.IGNORECASE)] for a literal pattern. *)
Fixpoint search_ci (pat s : string) : bool :=
  orb (prefix_ci pat s)
      (match s with
       | EmptyString => false
       | String _ s' => search_ci pat s'
       end).

(** [Series.str.contains('a|b|c', case=False, na=False)] on one cell:
    a missing cell ([NaN]) does not match. *)
Definition str_contains (alternatives : list string) (cell : option string)
  : bool :=
  match cell with
  | None => false
  | Some s => existsb (fun pat => search_ci pat s) alternatives
  end.

(** [timedelta(days=n)] in seconds. *)
Definition days (n : Z) : Z := n * 86400.

End Py.

Import Py.

Notation "x <- m ;; k" := (Py.bind m (fun x => k))
  (at level 61, m at next level, right associativity).

Definition len {A} (l : list A) : Z := Z.of_nat (List.length l).

(** ** The market-data provider *)

Definition ticker := string.

(** Timestamps, in seconds. *)
Definition timestamp := Z.

(** An attribute of [yf.Ticker(t)]: the access raises, or returns [None]
    or a value. *)
Definition fetch (A : Type) : Type := exc (option A).

(** The keys [calculate_earnings_esp] reads in a dict cell of
    [stock.analysis].  [current = None] stands for a key that is absent or
    whose value [float()] rejects: in both cases the bare [except] leaves
    [mean_estimate] as it was. *)
Record EpsDict := {
  current : option Q;
  upLast7days : option Z;
  downLast7days : option Z
}.

Inductive Cell : Type :=
| CDict (d : EpsDict)
| COther.

(** [stock.analysis], by index label, at its first column. *)
Definition AnalysisTable := list (string * Cell).

Record InsiderRow := {
  ir_date : timestamp;
  ir_transaction : option string
}.

Record InsiderTable := {
  it_has_transaction : bool;
  it_rows : list InsiderRow
}.

Record RecRow := {
  rr_date : timestamp;
  rr_to_grade : option string
}.

Record RecTable := {
  rt_has_to_grade : bool;
  rt_rows : list RecRow
}.

(** One day of price history. *)
Record Bar := {
  Close : Q;
  High : Q
}.

(** [stock.earnings_dates]: the ['Surprise(%)'] column, row by row, in the
    table's order; [None] is a row without a reported surprise (NaN). *)
Record EarningsTable := {
  et_has_surprise : bool;
  et_rows : list (option Q)
}.

(** [stock.calendar] by index label; [Some None] is a value that
    [pd.to_datetime] rejects. *)
Definition Calendar := list (string * option timestamp).

Record Info := {
  longName : option string;
  marketCap : option Z;
  info_sector : option string;
  currentPrice : option float
}.

Record Provider := {
  calendar : ticker -> fetch Calendar;
  info : ticker -> exc Info;
  recommendations : ticker -> fetch RecTable;
  analysis : ticker -> fetch AnalysisTable;
  insider_transactions : ticker -> fetch InsiderTable;
  history_1mo : ticker -> exc (list Bar);
  history_10d : ticker -> exc (list Bar);
  earnings_dates : ticker -> fetch EarningsTable
}.

Fixpoint loc {A} (label : string) (tbl : list (string * A)) : option A :=
  match tbl with
  | [] => None
  | (k, v) :: rest => if String.eqb k label then Some v else loc label rest
  end.

Definition is_empty {A} (l : list A) : bool :=
  match l with
  | [] => true
  | _ => false
  end.

(** ** Results of the evaluators *)

Inductive Strength := Strong | Moderate | Weak.

(** The descriptive text of a signal, with the values its f-string formats. *)
Inductive Detail : Type :=
| DStrength (s : Strength)
| DInsider (cluster : bool)
| DNone
| DUpgrades (n : Z)
| DDowngrades (n : Z)
| DUp10d (pct : npfloat)
| DNearHighs
| DQuartersBeat (beats total : Z)
| DSectorOut (outperformance : npfloat).

Record EspResult := {
  has_data : bool;
  esp_score : Z;
  mean_estimate : option Q;
  signal_strength : option Strength
}.

Record InsiderResult := {
  ins_has_activity : bool;
  ins_score : Z;
  num_purchases : option Z;
  ins_signal : option Detail
}.

Record AnalystResult := {
  ana_has_activity : bool;
  ana_score : Z;
  upgrades_downgrades : option (Z * Z);
  ana_signal : option Detail
}.

Record MomentumResult := {
  mom_has_momentum : bool;
  mom_score : Z;
  mom_signals : option (list Detail);
  pct_change_10d : option npfloat
}.

Record HistoryResult := {
  has_history : bool;
  hist_score : Z;
  beat_rate : option Q;
  beats_total : option (Z * Z);
  hist_signal : option Detail
}.

Record SectorResult := {
  sec_has_momentum : bool;
  sec_score : Z;
  outperformance : option npfloat;
  sec_signal : option Detail
}.

Definition esp_default : EspResult :=
  {| has_data := false; esp_score := 0;
     mean_estimate := None; signal_strength := None |}.

Definition insider_default : InsiderResult :=
  {| ins_has_activity := false; ins_score := 0;
     num_purchases := None; ins_signal := None |}.

Definition analyst_default : AnalystResult :=
  {| ana_has_activity := false; ana_score := 0;
     upgrades_downgrades := None; ana_signal := None |}.

Definition momentum_default : MomentumResult :=
  {| mom_has_momentum := false; mom_score := 0;
     mom_signals := None; pct_change_10d := None |}.

Definition history_default : HistoryResult :=
  {| has_history := false; hist_score := 0; beat_rate := None;
     beats_total := None; hist_signal := None |}.

Definition sector_default : SectorResult :=
  {| sec_has_momentum := false; sec_score := 0;
     outperformance := None; sec_signal := None |}.

(** ** The six signal evaluators *)

(** *** [calculate_earnings_esp] *)

(** One round of the loop over ['Eps Trend'] and ['Eps Revisions']: a dict
    cell with a readable ['current'] overwrites [mean_estimate]. *)
Definition read_current (tbl : AnalysisTable) (acc : option Q)
  (metric : string) : option Q :=
  match loc metric tbl with
  | Some (CDict eps_trend) =>
      match current eps_trend with
      | Some c => Some c
      | None => acc
      end
  | _ => acc
  end.

(** Truth value of [eps_data['mean_estimate']]: neither [None] nor zero. *)
Definition truthy (m : option Q) : bool :=
  match m with
  | Some q => negb (Qeq_bool q 0)
  | None => false
  end.

(** The revision block: [esp_score] starts at 0 and is set when the
    ['Eps Revisions'] cell is a dict with more upward than downward
    revisions in the last 7 days. *)
Definition revision_score (tbl : AnalysisTable) : Z :=
  match loc "Eps Revisions" tbl with
  | Some (CDict revisions) =>
      let up_revisions := get (upLast7days revisions) 0 in
      let down_revisions := get (downLast7days revisions) 0 in
      if down_revisions <? up_revisions
      then Z.min 30 (up_revisions * 5)
      else 0
  | _ => 0
  end.

Definition strength_of (esp_score : Z) : Strength :=
  if 20 <? esp_score then Strong
  else if 10 <? esp_score then Moderate
  else Weak.

Definition calculate_earnings_esp (p : Provider) (t : ticker) : EspResult :=
  try_except
    (_recommendations <- recommendations p t ;;
     fetched <- analysis p t ;;
     Ok (match fetched with
         | Some tbl =>
             if negb (is_empty tbl) then
               let mean :=
                 fold_left (read_current tbl)
                           ["Eps Trend"; "Eps Revisions"]%string None in
               if truthy mean then
                 let score := revision_score tbl in
                 {| has_data := true;
                    esp_score := score;
                    mean_estimate := mean;
                    signal_strength := Some (strength_of score) |}
               else esp_default
             else esp_default
         | None => esp_default
         end))
    esp_default.

(** *** [check_insider_activity] *)

Definition is_recent_purchase (recent_date : timestamp) (r : InsiderRow)
  : bool :=
  andb (str_contains ["Purchase"%string] (ir_transaction r))
       (recent_date <? ir_date r).

Definition insider_score (num_insiders : Z) : Z :=
  if 3 <=? num_insiders then 25
  else if num_insiders =? 2 then 15
  else if num_insiders =? 1 then 10
  else 0.

Definition check_insider_activity (now : timestamp) (p : Provider)
  (t : ticker) : InsiderResult :=
  try_except
    (fetched <- insider_transactions p t ;;
     Ok (match fetched with
         | Some insider_trades =>
             if negb (is_empty (it_rows insider_trades)) then
               let recent_date := now - days 30 in
               if it_has_transaction insider_trades then
                 let purchases :=
                   filter (is_recent_purchase recent_date)
                          (it_rows insider_trades) in
                 if 0 <? len purchases then
                   let num_insiders := len purchases in
                   {| ins_has_activity := true;
                      ins_score := insider_score num_insiders;
                      num_purchases := Some num_insiders;
                      ins_signal := Some (DInsider (3 <=? num_insiders)) |}
                 else insider_default
               else insider_default
             else insider_default
         | None => insider_default
         end))
    insider_default.

(** *** [check_analyst_activity] *)

Definition analyst_score_signal (upgrades downgrades : Z) : Z * Detail :=
  if downgrades <? upgrades then (Z.min 20 (upgrades * 7), DUpgrades upgrades)
  else if upgrades <? downgrades then (-10, DDowngrades downgrades)
  else (0, DNone).

Definition check_analyst_activity (now : timestamp) (p : Provider)
  (t : ticker) : AnalystResult :=
  try_except
    (fetched <- recommendations p t ;;
     match fetched with
     | Some recs =>
         if negb (is_empty (rt_rows recs)) then
           let recent_date := now - days 30 in
           let recent_recs :=
             filter (fun r => recent_date <? rr_date r) (rt_rows recs) in
           if 0 <? len recent_recs then
             (* recent_recs['To Grade'] is a KeyError without the column *)
             if rt_has_to_grade recs then
               let upgrades :=
                 len (filter
                        (fun r => str_contains
                                    ["Buy"; "Outperform"; "Overweight"]%string
                                    (rr_to_grade r))
                        recent_recs) in
               let downgrades :=
                 len (filter
                        (fun r =>
                           str_contains
                             ["Sell"; "Underperform"; "Underweight"]%string
                             (rr_to_grade r))
                        recent_recs) in
               let '(score, signal) :=
                 analyst_score_signal upgrades downgrades in
               Ok {| ana_has_activity := true;
                     ana_score := score;
                     upgrades_downgrades := Some (upgrades, downgrades);
                     ana_signal := Some signal |}
             else Raise
           else Ok analyst_default
         else Ok analyst_default
     | None => Ok analyst_default
     end)
    analyst_default.

(** *** [check_price_momentum] *)

(** [Series.max()] on a column without missing values. *)
Definition Qmax_list (l : list Q) : Q :=
  match l with
  | [] => 0%Q
  | x :: rest => fold_left (fun m y => if Qle_bool m y then y else m) rest x
  end.

(** [((a - b) / b) * 100] on numpy floats. *)
Definition pct_of (a b : Q) : npfloat := np_scale (np_div (a - b)%Q b) 100%Q.

(** The two momentum rules, applied in order to [score] and [signals]. *)
Definition momentum_rules (pct_change pct_from_high : npfloat)
  : Z * list Detail :=
  let score := 0 in
  let signals := [] in
  let '(score, signals) :=
    if np_gt pct_change 5%Q
    then (score + 15, signals ++ [DUp10d pct_change])
    else if np_gt pct_change 2%Q
    then (score + 10, signals ++ [DUp10d pct_change])
    else (score, signals) in
  let '(score, signals) :=
    if np_gt pct_from_high (-3)%Q
    then (score + 10, signals ++ [DNearHighs])
    else (score, signals) in
  (score, signals).

(** [pct_change]: the last close against the close ten rows back, or
    against the first close of a shorter history. *)
Definition pct_change_of (hist : list Bar) : npfloat :=
  let closes := map Close hist in
  let current_price := nth (List.length hist - 1) closes 0%Q in
  let price_10d_ago :=
    if 10 <=? len hist
    then nth (List.length hist - 10) closes 0%Q
    else nth 0 closes 0%Q in
  pct_of current_price price_10d_ago.

(** [pct_from_high]: the last close against the highest high. *)
Definition pct_from_high_of (hist : list Bar) : npfloat :=
  let closes := map Close hist in
  let current_price := nth (List.length hist - 1) closes 0%Q in
  let high_30d := Qmax_list (map High hist) in
  pct_of current_price high_30d.

Definition check_price_momentum (p : Provider) (t : ticker)
  : MomentumResult :=
  try_except
    (hist <- history_1mo p t ;;
     Ok (if 5 <? len hist then
           let pct_change := pct_change_of hist in
           let pct_from_high := pct_from_high_of hist in
           let '(score, signals) :=
             momentum_rules pct_change pct_from_high in
           {| mom_has_momentum := 0 <? score;
              mom_score := score;
              mom_signals := Some signals;
              pct_change_10d := Some pct_change |}
         else momentum_default))
    momentum_default.

(** *** [check_historical_beat_rate] *)

(** [row['Surprise(%)'] > 0]; a missing value compares false. *)
Definition is_beat (surprise : option Q) : bool :=
  match surprise with
  | Some s => Qltb 0 s
  | None => false
  end.

Definition beat_rate_score (rate : Q) : Z :=
  if Qle_bool (75 # 100) rate then 20
  else if Qle_bool (50 # 100) rate then 10
  else 0.

Definition check_historical_beat_rate (p : Provider) (t : ticker)
  : HistoryResult :=
  try_except
    (fetched <- earnings_dates p t ;;
     Ok (match fetched with
         | Some earnings_hist =>
             if negb (is_empty (et_rows earnings_hist)) then
               let recent_earnings := firstn 4 (et_rows earnings_hist) in
               if et_has_surprise earnings_hist then
                 let beats := len (filter is_beat recent_earnings) in
                 let total := len recent_earnings in
                 if 0 <? total then
                   let rate := (inject_Z beats / inject_Z total)%Q in
                   {| has_history := true;
                      hist_score := beat_rate_score rate;
                      beat_rate := Some rate;
                      beats_total := Some (beats, total);
                      hist_signal := Some (DQuartersBeat beats total) |}
                 else history_default
               else history_default
             else history_default
         | None => history_default
         end))
    history_default.

(** *** [check_sector_momentum] *)

Definition sector_etfs : list (string * string) :=
  [ ("Technology", "XLK"); ("Financial Services", "XLF");
    ("Healthcare", "XLV"); ("Consumer Cyclical", "XLY");
    ("Industrials", "XLI"); ("Energy", "XLE");
    ("Consumer Defensive", "XLP"); ("Real Estate", "XLRE");
    ("Communication Services", "XLC"); ("Utilities", "XLU");
    ("Basic Materials", "XLB") ]%string.

(** 10-day return of a non-empty history: last close against first. *)
Definition period_return (hist : list Bar) : npfloat :=
  let closes := map Close hist in
  pct_of (nth (List.length hist - 1) closes 0%Q) (nth 0 closes 0%Q).

Definition sector_score (outperf : npfloat) : Z :=
  if np_gt outperf 2%Q then 15
  else if np_gt outperf 0%Q then 10
  else 0.

Definition check_sector_momentum (p : Provider) (t : ticker)
  (sector : string) : SectorResult :=
  try_except
    (match loc sector sector_etfs with
     | Some etf_ticker =>
         etf_hist <- history_10d p etf_ticker ;;
         spy_hist <- history_10d p "SPY"%string ;;
         Ok (if andb (0 <? len etf_hist) (0 <? len spy_hist) then
               let etf_return := period_return etf_hist in
               let spy_return := period_return spy_hist in
               let outperf := np_sub etf_return spy_return in
               let score := sector_score outperf in
               {| sec_has_momentum := 0 <? score;
                  sec_score := score;
                  outperformance := Some outperf;
                  sec_signal := Some (DSectorOut outperf) |}
             else sector_default)
     | None => Ok sector_default
     end)
    sector_default.

(** ** The aggregator: [analyze_stock] *)

Record Candidate := {
  c_ticker : ticker;
  c_earnings_date : timestamp;
  c_company : string;
  c_market_cap : Z;
  c_sector : string
}.

Inductive SignalName :=
| EarningsESP
| InsiderActivity
| AnalystActivity
| PriceMomentum
| HistoricalBeatRate
| SectorMomentum.

(** A displayed signal: name, score, detail. *)
Definition Signal : Type := SignalName * Z * Detail.

Record Analysis := {
  a_ticker : ticker;
  a_company : string;
  a_earnings_date : timestamp;
  a_sector : string;
  total_score : Z;
  signals : list Signal
}.

(** [analysis['total_score'] += s] *)
Definition add_score (a : Analysis) (s : Z) : Analysis :=
  {| a_ticker := a_ticker a; a_company := a_company a;
     a_earnings_date := a_earnings_date a; a_sector := a_sector a;
     total_score := total_score a + s;
     signals := signals a |}.

(** [analysis['signals'].append(sig)] *)
Definition append_signal (a : Analysis) (sig : Signal) : Analysis :=
  {| a_ticker := a_ticker a; a_company := a_company a;
     a_earnings_date := a_earnings_date a; a_sector := a_sector a;
     total_score := total_score a;
     signals := signals a ++ [sig] |}.

Definition apply_esp (esp : EspResult) (a : Analysis) : exc Analysis :=
  if has_data esp then
    let a := add_score a (esp_score esp) in
    if 0 <? esp_score esp then
      strength <- getitem (signal_strength esp) ;;
      Ok (append_signal a (EarningsESP, esp_score esp, DStrength strength))
    else Ok a
  else Ok a.

Definition apply_insider (insider : InsiderResult) (a : Analysis)
  : exc Analysis :=
  if ins_has_activity insider then
    let a := add_score a (ins_score insider) in
    signal <- getitem (ins_signal insider) ;;
    Ok (append_signal a (InsiderActivity, ins_score insider, signal))
  else Ok a.

Definition apply_analyst (analyst : AnalystResult) (a : Analysis)
  : exc Analysis :=
  if andb (ana_has_activity analyst) (0 <? ana_score analyst) then
    let a := add_score a (ana_score analyst) in
    signal <- getitem (ana_signal analyst) ;;
    Ok (append_signal a (AnalystActivity, ana_score analyst, signal))
  else Ok a.

Definition apply_momentum (momentum : MomentumResult) (a : Analysis)
  : exc Analysis :=
  if mom_has_momentum momentum then
    let a := add_score a (mom_score momentum) in
    sigs <- getitem (mom_signals momentum) ;;
    Ok (fold_left
          (fun a signal =>
             append_signal a (PriceMomentum, mom_score momentum, signal))
          sigs a)
  else Ok a.

Definition apply_history (history : HistoryResult) (a : Analysis)
  : exc Analysis :=
  if has_history history then
    let a := add_score a (hist_score history) in
    signal <- getitem (hist_signal history) ;;
    Ok (append_signal a (HistoricalBeatRate, hist_score history, signal))
  else Ok a.

Definition apply_sector (sector : SectorResult) (a : Analysis)
  : exc Analysis :=
  if sec_has_momentum sector then
    let a := add_score a (sec_score sector) in
    signal <- getitem (sec_signal sector) ;;
    Ok (append_signal a (SectorMomentum, sec_score sector, signal))
  else Ok a.

Definition analyze_stock (now : timestamp) (p : Provider)
  (stock_info : Candidate) : exc Analysis :=
  let t := c_ticker stock_info in
  let a := {| a_ticker := t;
              a_company := c_company stock_info;
              a_earnings_date := c_earnings_date stock_info;
              a_sector := c_sector stock_info;
              total_score := 0;
              signals := [] |} in
  a <- apply_esp (calculate_earnings_esp p t) a ;;
  a <- apply_insider (check_insider_activity now p t) a ;;
  a <- apply_analyst (check_analyst_activity now p t) a ;;
  a <- apply_momentum (check_price_momentum p t) a ;;
  a <- apply_history (check_historical_beat_rate p t) a ;;
  a <- apply_sector (check_sector_momentum p t (c_sector stock_info)) a ;;
  Ok a.

(** ** The notifier: [send_earnings_alert] *)

Inductive Confidence := HIGH_CONFIDENCE | MODERATE_CONFIDENCE | LOW_CONFIDENCE.

Record Play := {
  shares : Z;
  play_price : float;
  stop_price : float;
  stop_pct : Z;
  target_price : float;
  target_pct : Z;
  risk_reward : float
}.

Inductive Field : Type :=
| FSignal (name : SignalName) (score : Z) (detail : Detail)
| FPlay (play : Play)
| FDisclaimer.

(** The embed handed to [send_discord_alert]. *)
Record Alert := {
  al_ticker : ticker;
  al_color : Z;
  al_confidence : Confidence;
  al_days_until : Z;
  al_score : Z;
  al_sector : string;
  al_fields : list Field
}.

Definition confidence_of (score : Z) : Z * Confidence :=
  if 80 <=? score then (15158332, HIGH_CONFIDENCE)
  else if 70 <=? score then (16776960, MODERATE_CONFIDENCE)
  else (3447003, LOW_CONFIDENCE).

(** Position sizing for a positive [current_price], in binary64: the
    share count, the stop and target prices, and the ratio printed as
    risk/reward.  [int] raises when the quotient is not finite. *)
Definition suggested_play (score : Z) (current_price : float) : exc Play :=
  sized <-
    (if 80 <=? score then
       n <- (q <- truediv (of_int 5000) current_price ;; int_of_float q) ;;
       Ok (n, 7, 15)
     else if 70 <=? score then
       n <- (q <- truediv (of_int 3000) current_price ;; int_of_float q) ;;
       Ok (n, 8, 12)
     else
       n <- (q <- truediv (of_int 2000) current_price ;; int_of_float q) ;;
       Ok (n, 10, 10)) ;;
  let '(n_shares, stop, target) := sized in
  stop_part <- truediv (of_int stop) (of_int 100) ;;
  target_part <- truediv (of_int target) (of_int 100) ;;
  ratio <- truediv (of_int target) (of_int stop) ;;
  Ok {| shares := n_shares;
        play_price := current_price;
        stop_price := fmul current_price (fsub (of_int 1) stop_part);
        stop_pct := stop;
        target_price := fmul current_price (fadd (of_int 1) target_part);
        target_pct := target;
        risk_reward := ratio |}.

(** The [try] block that appends the suggested play; any exception in it
    is swallowed and no field is added. *)
Definition play_fields (p : Provider) (t : ticker) (score : Z)
  : list Field :=
  try_except
    (i <- info p t ;;
     let current_price := get (currentPrice i) (of_int 0) in
     if fltb (of_int 0) current_price then
       play <- suggested_play score current_price ;;
       Ok [FPlay play]
     else Ok [])
    [].

Definition send_earnings_alert (now : timestamp) (p : Provider)
  (a : Analysis) : Alert :=
  let t := a_ticker a in
  let score := total_score a in
  let '(color, confidence) := confidence_of score in
  let days_until := (a_earnings_date a - now) / 86400 in
  let fields :=
    map (fun '(signal_name, signal_score, signal_detail) =>
           FSignal signal_name signal_score signal_detail)
        (firstn 6 (signals a)) in
  let fields := fields ++ play_fields p t score in
  let fields := fields ++ [FDisclaimer] in
  {| al_ticker := t; al_color := color; al_confidence := confidence;
     al_days_until := days_until; al_score := score;
     al_sector := a_sector a; al_fields := fields |}.

(** ** The candidate finder: [get_upcoming_earnings] *)

Definition sample_tickers : list ticker :=
  [ "AAPL"; "MSFT"; "GOOGL"; "AMZN"; "META"; "NVDA"; "TSLA"; "AMD"; "INTC";
    "JPM"; "BAC"; "WFC"; "GS"; "MS"; "C";
    "JNJ"; "UNH"; "PFE"; "ABBV"; "MRK"; "TMO";
    "WMT"; "HD"; "COST"; "NKE"; "SBUX"; "MCD";
    "CAT"; "BA"; "GE"; "HON"; "UPS"; "FDX";
    "XOM"; "CVX"; "COP"; "SLB";
    "DIS"; "NFLX"; "PYPL"; "SQ"; "SHOP" ]%string.

(** The body of the per-ticker [try]: the candidate to append, if any. *)
Definition find_candidate (today cutoff : timestamp) (p : Provider)
  (t : ticker) : exc (option Candidate) :=
  fetched <- calendar p t ;;
  match fetched with
  | Some cal =>
      if negb (is_empty cal) then
        match loc "Earnings Date" cal with
        | Some earnings_date_val =>
            earnings_date <- getitem earnings_date_val ;;
            if andb (today <=? earnings_date) (earnings_date <=? cutoff) then
              i <- info p t ;;
              Ok (Some {| c_ticker := t;
                          c_earnings_date := earnings_date;
                          c_company := get (longName i) t;
                          c_market_cap := get (marketCap i) 0;
                          c_sector := get (info_sector i) "Unknown"%string |})
            else Ok None
        | None => Ok None
        end
      else Ok None
  | None => Ok None
  end.

Definition get_upcoming_earnings (now : timestamp) (p : Provider)
  (days_ahead : Z) : list Candidate :=
  let today := now in
  let cutoff := today + days days_ahead in
  fold_left
    (fun earnings_stocks t =>
       match try_except (find_candidate today cutoff p t) None with
       | Some c => earnings_stocks ++ [c]
       | None => earnings_stocks
       end)
    sample_tickers [].

(** ** The orchestrator: [run_scan] *)

Definition alert_threshold : Z := 70.

(** The per-candidate lines printed by the scan loop. *)
Inductive LogLine : Type :=
| LogAlert (t : ticker) (score : Z)
| LogNoAlert (t : ticker) (score : Z)
| LogError (t : ticker).

(** One round of the analysis loop over [(high_priority, log)]. *)
Definition scan_step (now : timestamp) (p : Provider)
  (st : list Analysis * list LogLine) (stock_info : Candidate)
  : list Analysis * list LogLine :=
  let '(high_priority, log) := st in
  match analyze_stock now p stock_info with
  | Ok a =>
      if alert_threshold <=? total_score a
      then (high_priority ++ [a],
            log ++ [LogAlert (c_ticker stock_info) (total_score a)])
      else (high_priority,
            log ++ [LogNoAlert (c_ticker stock_info) (total_score a)])
  | Raise => (high_priority, log ++ [LogError (c_ticker stock_info)])
  end.

(** [sorted(high_priority, key=total_score, reverse=True)]: stable, so
    analyses of equal score keep their order. *)
Fixpoint insert_desc (a : Analysis) (l : list Analysis) : list Analysis :=
  match l with
  | [] => [a]
  | b :: rest =>
      if total_score b <=? total_score a
      then a :: b :: rest
      else b :: insert_desc a rest
  end.

Definition sorted_desc (l : list Analysis) : list Analysis :=
  fold_right insert_desc [] l.

Record ScanOutcome := {
  scan_log : list LogLine;
  alerts_sent : list Alert;
  returned : option (list Analysis)
}.

Definition run_scan (now : timestamp) (p : Provider) : ScanOutcome :=
  let upcoming_earnings := get_upcoming_earnings now p 7 in
  if is_empty upcoming_earnings then
    {| scan_log := []; alerts_sent := []; returned := None |}
  else
    let '(high_priority, log) :=
      fold_left (scan_step now p) upcoming_earnings ([], []) in
    {| scan_log := log;
       alerts_sent :=
         map (send_earnings_alert now p) (sorted_desc high_priority);
       returned := Some high_priority |}.

(** ** What each evaluator contributes to an analysis *)

(** [a] after adding [s] to the total and appending [new] to the signals. *)
Definition extend (a : Analysis) (s : Z) (new : list Signal) : Analysis :=
  {| a_ticker := a_ticker a; a_company := a_company a;
     a_earnings_date := a_earnings_date a; a_sector := a_sector a;
     total_score := total_score a + s;
     signals := signals a ++ new |}.

Definition entry_of (name : SignalName) (score : Z) (d : option Detail)
  : list Signal :=
  match d with
  | Some detail => [(name, score, detail)]
  | None => []
  end.

Definition esp_entries (r : EspResult) : list Signal :=
  if 0 <? esp_score r
  then entry_of EarningsESP (esp_score r)
                (option_map DStrength (signal_strength r))
  else [].

Definition insider_entries (r : InsiderResult) : list Signal :=
  entry_of InsiderActivity (ins_score r) (ins_signal r).

Definition analyst_entries (r : AnalystResult) : list Signal :=
  if 0 <? ana_score r
  then entry_of AnalystActivity (ana_score r) (ana_signal r)
  else [].

Definition momentum_entries (r : MomentumResult) : list Signal :=
  if 0 <? mom_score r
  then map (fun d => (PriceMomentum, mom_score r, d)) (get (mom_signals r) [])
  else [].

Definition history_entries (r : HistoryResult) : list Signal :=
  entry_of HistoricalBeatRate (hist_score r) (hist_signal r).

Definition sector_entries (r : SectorResult) : list Signal :=
  if 0 <? sec_score r
  then entry_of SectorMomentum (sec_score r) (sec_signal r)
  else [].

(** The six evaluator results of one ticker. *)
Record Evaluations := {
  ev_esp : EspResult;
  ev_insider : InsiderResult;
  ev_analyst : AnalystResult;
  ev_momentum : MomentumResult;
  ev_history : HistoryResult;
  ev_sector : SectorResult
}.

Definition evaluate (now : timestamp) (p : Provider) (c : Candidate)
  : Evaluations :=
  {| ev_esp := calculate_earnings_esp p (c_ticker c);
     ev_insider := check_insider_activity now p (c_ticker c);
     ev_analyst := check_analyst_activity now p (c_ticker c);
     ev_momentum := check_price_momentum p (c_ticker c);
     ev_history := check_historical_beat_rate p (c_ticker c);
     ev_sector := check_sector_momentum p (c_ticker c) (c_sector c) |}.

(** The sum of all six evaluator scores, whatever their sign. *)
Definition sum_of_scores (e : Evaluations) : Z :=
  esp_score (ev_esp e) + ins_score (ev_insider e) + ana_score (ev_analyst e)
  + mom_score (ev_momentum e) + hist_score (ev_history e)
  + sec_score (ev_sector e).

(** The signal list an analysis displays, by evaluator. *)
Definition displayed (e : Evaluations) : list Signal :=
  esp_entries (ev_esp e) ++ insider_entries (ev_insider e)
  ++ analyst_entries (ev_analyst e) ++ momentum_entries (ev_momentum e)
  ++ history_entries (ev_history e) ++ sector_entries (ev_sector e).

Definition signal_name (s : Signal) : SignalName := fst (fst s).
Definition signal_score (s : Signal) : Z := snd (fst s).

Definition is_analyst (s : Signal) : bool :=
  match signal_name s with
  | AnalystActivity => true
  | _ => false
  end.

Definition is_momentum (s : Signal) : bool :=
  match signal_name s with
  | PriceMomentum => true
  | _ => false
  end.

(** Sum of the scores shown next to the signals of a list. *)
Definition sum_displayed (l : list Signal) : Z :=
  fold_right (fun s acc => signal_score s + acc) 0 l.

(** The analysis [analyze_stock] returns for a candidate: its fields, the
    gated sum of the six scores, and the displayed signals. *)
Definition analysis_of (now : timestamp) (p : Provider) (c : Candidate)
  : Analysis :=
  let e := evaluate now p c in
  {| a_ticker := c_ticker c;
     a_company := c_company c;
     a_earnings_date := c_earnings_date c;
     a_sector := c_sector c;
     total_score :=
       esp_score (ev_esp e) + ins_score (ev_insider e)
       + Z.max 0 (ana_score (ev_analyst e))
       + mom_score (ev_momentum e) + hist_score (ev_history e)
       + sec_score (ev_sector e);
     signals := displayed e |}.

(** Whether an analysis meets the alert threshold. *)
Definition qualifies (a : Analysis) : bool :=
  alert_threshold <=? total_score a.

(** The log line of a candidate whose analysis returned [a]. *)
Definition log_line (c : Candidate) (a : Analysis) : LogLine :=
  if qualifies a
  then LogAlert (c_ticker c) (total_score a)
  else LogNoAlert (c_ticker c) (total_score a).

(** The analyses for which [run_scan] calls [send_earnings_alert], in the
    order of the calls. *)
Definition alerted (now : timestamp) (p : Provider) : list Analysis :=
  match returned (run_scan now p) with
  | Some high_priority => sorted_desc high_priority
  | None => []
  end.

(** The position notional and the stop / target percentages of a score
    tier, as the specification tabulates them. *)
Definition notional_of (score : Z) : Z :=
  if 80 <=? score then 5000
  else if 70 <=? score then 3000
  else 2000.

Definition tier_pcts (score : Z) : Z * Z :=
  if 80 <=? score then (7, 15)
  else if 70 <=? score then (8, 12)
  else (10, 10).

(** The fields of the signals shown in an alert. *)
Definition signal_fields (a : Analysis) : list Field :=
  map (fun '(signal_name, signal_score, signal_detail) =>
         FSignal signal_name signal_score signal_detail)
      (firstn 6 (signals a)).

(** *** Unavailable data, and providers that agree *)

(** A fetch that raised, returned [None], or returned an empty table. *)
Definition unavailable {A} (empty : A -> bool) (f : fetch A) : bool :=
  match f with
  | Raise => true
  | Ok None => true
  | Ok (Some a) => empty a
  end.

(** A price history that raised or came back empty. *)
Definition no_history (h : exc (list Bar)) : bool :=
  match h with
  | Raise => true
  | Ok l => is_empty l
  end.

(** [p] and [p'] hold the same per-ticker data for [t]: everything the
    evaluators fetch under the ticker's own symbol. *)
Definition same_ticker_data (p p' : Provider) (t : ticker) : Prop :=
  recommendations p t = recommendations p' t
  /\ analysis p t = analysis p' t
  /\ insider_transactions p t = insider_transactions p' t
  /\ history_1mo p t = history_1mo p' t
  /\ earnings_dates p t = earnings_dates p' t.

(** [p] and [p'] hold the same 10-day histories of the sector ETFs and of
    the broad-market ETF. *)
Definition same_market_data (p p' : Provider) : Prop :=
  forall s, In s ("SPY"%string :: map snd sector_etfs) ->
            history_10d p s = history_10d p' s.

(** [p] and [p'] hold the same data on everything a scan queries. *)
Definition same_upstream_data (p p' : Provider) : Prop :=
  (forall t, In t sample_tickers ->
             calendar p t = calendar p' t
             /\ info p t = info p' t
             /\ same_ticker_data p p' t)
  /\ same_market_data p p'.

(** ** Sample providers *)

Definition blank_info : Info :=
  {| longName := None; marketCap := None;
     info_sector := None; currentPrice := None |}.

(** A provider that has nothing on any ticker. *)
Definition silent : Provider :=
  {| calendar := fun _ => Ok None;
     info := fun _ => Ok blank_info;
     recommendations := fun _ => Ok None;
     analysis := fun _ => Ok None;
     insider_transactions := fun _ => Ok None;
     history_1mo := fun _ => Ok [];
     history_10d := fun _ => Ok [];
     earnings_dates := fun _ => Ok None |}.

(** A provider whose every access raises. *)
Definition failing : Provider :=
  {| calendar := fun _ => Raise;
     info := fun _ => Raise;
     recommendations := fun _ => Raise;
     analysis := fun _ => Raise;
     insider_transactions := fun _ => Raise;
     history_1mo := fun _ => Raise;
     history_10d := fun _ => Raise;
     earnings_dates := fun _ => Raise |}.

(** [v] for ticker [t], [other] for every other ticker. *)
Definition only {A} (t : ticker) (v other : A) : ticker -> A :=
  fun t' => if String.eqb t' t then v else other.

Definition aapl : Candidate :=
  {| c_ticker := "AAPL"; c_earnings_date := days 103;
     c_company := "Apple Inc."; c_market_cap := 3000000000000;
     c_sector := "Technology" |}%string.

(** The clock of the sample runs: day 100. *)
Definition day100 : timestamp := days 100.

(** One analyst moved AAPL to Sell five days ago. *)
Definition downgraded : Provider :=
  {| calendar := calendar silent;
     info := info silent;
     recommendations :=
       only "AAPL"
            (Ok (Some {| rt_has_to_grade := true;
                         rt_rows := [ {| rr_date := days 95;
                                         rr_to_grade := Some "Sell" |} ] |}))
            (Ok None);
     analysis := analysis silent;
     insider_transactions := insider_transactions silent;
     history_1mo := history_1mo silent;
     history_10d := history_10d silent;
     earnings_dates := earnings_dates silent |}%string.

(** *** The beat rate as the specification words it *)

Definition is_reported (surprise : option Q) : bool :=
  match surprise with
  | Some _ => true
  | None => false
  end.

(** The score over "the last 4 reported quarters' surprise percentages
    (quarters with a reported surprise value)": the first four rows that
    carry a surprise value, the beat rate among them, and the 75% / 50%
    thresholds. *)
Definition claimed_beat_rate_score (rows : list (option Q)) : Z :=
  let reported := filter is_reported rows in
  let last4 := firstn 4 reported in
  let beats := len (filter is_beat last4) in
  let total := len last4 in
  if 0 <? total
  then beat_rate_score (inject_Z beats / inject_Z total)%Q
  else 0.

(** AAPL ahead of its report: the two scheduled dates at the top of the
    table have no surprise yet, the two quarters below them were beats. *)
Definition pending_rows : list (option Q) :=
  [None; None; Some (5 # 1); Some (3 # 1)].

Definition pending : Provider :=
  {| calendar := calendar silent;
     info := info silent;
     recommendations := recommendations silent;
     analysis := analysis silent;
     insider_transactions := insider_transactions silent;
     history_1mo := history_1mo silent;
     history_10d := history_10d silent;
     earnings_dates :=
       only "AAPL"
            (Ok (Some {| et_has_surprise := true; et_rows := pending_rows |}))
            (Ok None) |}%string.

(** *** A candidate with several signals *)

Definition aapl_analysis : AnalysisTable :=
  [ ("Eps Trend",
     CDict {| current := Some (3 # 2);
              upLast7days := None; downLast7days := None |});
    ("Eps Revisions",
     CDict {| current := None;
              upLast7days := Some 10; downLast7days := Some 2 |}) ]%string.

(** Three purchases and a sale, all dated day 70 and a half. *)
Definition aapl_insiders : InsiderTable :=
  {| it_has_transaction := true;
     it_rows :=
       [ {| ir_date := days 70 + 43200;
            ir_transaction := Some "Purchase at price 171.20 per share." |};
         {| ir_date := days 70 + 43200;
            ir_transaction := Some "Purchase at price 170.85 per share." |};
         {| ir_date := days 70 + 43200;
            ir_transaction := Some "Sale at price 172.00 per share." |};
         {| ir_date := days 70 + 43200;
            ir_transaction := Some "purchase at price 171.00 per share." |} ]
  |}%string.

Definition aapl_earnings : EarningsTable :=
  {| et_has_surprise := true;
     et_rows := [Some (5 # 1); Some (3 # 1); Some (-1 # 1); Some (2 # 1);
                 Some (-4 # 1)] |}.

Definition aapl_info : Info :=
  {| longName := Some "Apple Inc."%string; marketCap := Some 3000000000000;
     info_sector := Some "Technology"%string;
     currentPrice := Some (of_int 250) |}.

(** AAPL reports on day 103; nothing is known about any other ticker. *)
Definition rich : Provider :=
  {| calendar :=
       only "AAPL" (Ok (Some [("Earnings Date", Some (days 103))]))
            (Ok None);
     info := only "AAPL" (Ok aapl_info) (Ok blank_info);
     recommendations := recommendations silent;
     analysis := only "AAPL" (Ok (Some aapl_analysis)) (Ok None);
     insider_transactions := only "AAPL" (Ok (Some aapl_insiders)) (Ok None);
     history_1mo := history_1mo silent;
     history_10d := history_10d silent;
     earnings_dates := only "AAPL" (Ok (Some aapl_earnings)) (Ok None)
  |}%string.

(** *** A candidate on which every evaluator fires *)

(** A day that closes at its high. *)
Definition bar (c : Z) : Bar := {| Close := inject_Z c; High := inject_Z c |}.

(** Twelve days ending at 110, ten rows after a close of 100. *)
Definition nvda_month : list Bar :=
  map bar [95; 96; 100; 101; 102; 103; 104; 105; 106; 107; 108; 110].

Definition nvda_upgrades : RecTable :=
  {| rt_has_to_grade := true;
     rt_rows :=
       [ {| rr_date := days 95; rr_to_grade := Some "Buy" |};
         {| rr_date := days 96; rr_to_grade := Some "Outperform" |};
         {| rr_date := days 97; rr_to_grade := Some "overweight" |} ] |}%string.

Definition nvda : Candidate :=
  {| c_ticker := "NVDA"; c_earnings_date := days 104;
     c_company := "NVIDIA Corporation"; c_market_cap := 2000000000000;
     c_sector := "Technology" |}%string.

(** The technology ETF gains 6% in ten days, the broad market 2%. *)
Definition hot : Provider :=
  {| calendar :=
       only "NVDA" (Ok (Some [("Earnings Date", Some (days 104))]))
            (Ok None);
     info := only "NVDA" (Ok aapl_info) (Ok blank_info);
     recommendations := only "NVDA" (Ok (Some nvda_upgrades)) (Ok None);
     analysis := only "NVDA" (Ok (Some aapl_analysis)) (Ok None);
     insider_transactions := only "NVDA" (Ok (Some aapl_insiders)) (Ok None);
     history_1mo := only "NVDA" (Ok nvda_month) (Ok []);
     history_10d :=
       fun s =>
         if String.eqb s "XLK" then Ok (map bar [100; 103; 106])
         else if String.eqb s "SPY" then Ok (map bar [100; 101; 102])
         else Ok [];
     earnings_dates := only "NVDA" (Ok (Some aapl_earnings)) (Ok None)
  |}%string.

(** The provider reports revision counts that are not negative. *)
Definition revisions_nonneg (p : Provider) (t : ticker) : Prop :=
  forall tbl d,
    analysis p t = Ok (Some tbl) ->
    loc "Eps Revisions"%string tbl = Some (CDict d) ->
    0 <= get (upLast7days d) 0 /\ 0 <= get (downLast7days d) 0.

(** [rich], except that every access for MSFT raises. *)
Definition rich_msft_down : Provider :=
  {| calendar :=
       fun t => if String.eqb t "MSFT" then Raise else calendar rich t;
     info := fun t => if String.eqb t "MSFT" then Raise else info rich t;
     recommendations :=
       fun t => if String.eqb t "MSFT" then Raise else recommendations rich t;
     analysis :=
       fun t => if String.eqb t "MSFT" then Raise else analysis rich t;
     insider_transactions :=
       fun t => if String.eqb t "MSFT" then Raise
                else insider_transactions rich t;
     history_1mo :=
       fun t => if String.eqb t "MSFT" then Raise else history_1mo rich t;
     history_10d := history_10d rich;
     earnings_dates :=
       fun t => if String.eqb t "MSFT" then Raise
                else earnings_dates rich t |}%string.

(** [rich], with estimates for a ticker outside the scanned universe. *)
Definition rich_and_ibm : Provider :=
  {| calendar := calendar rich;
     info := info rich;
     recommendations := recommendations rich;
     analysis :=
       fun t => if String.eqb t "IBM" then Ok (Some aapl_analysis)
                else analysis rich t;
     insider_transactions := insider_transactions rich;
     history_1mo := history_1mo rich;
     history_10d := history_10d rich;
     earnings_dates := earnings_dates rich |}%string.

(** ** Notions used to state further properties *)

(** [l1] is [l2] with some elements left out, the order kept. *)
Inductive subseq {A : Type} : list A -> list A -> Prop :=
| subseq_nil : subseq [] []
| subseq_skip (x : A) (l1 l2 : list A) : subseq l1 l2 -> subseq l1 (x :: l2)
| subseq_take (x : A) (l1 l2 : list A) :
    subseq l1 l2 -> subseq (x :: l1) (x :: l2).


(** What one round of the finder's loop appends. *)
Definition candidates_of (today cutoff : timestamp) (p : Provider)
  (t : ticker) : list Candidate :=
  match try_except (find_candidate today cutoff p t) None with
  | Some c => [c]
  | None => []
  end.

(** Scores in non-increasing order. *)
Definition descending (scores : list Z) : Prop :=
  StronglySorted (fun x y => y <= x) scores.

Definition is_alert_line (l : LogLine) : bool :=
  match l with
  | LogAlert _ _ => true
  | _ => false
  end.

Definition is_signal_field (f : Field) : bool :=
  match f with
  | FSignal _ _ _ => true
  | _ => false
  end.

Definition is_play_field (f : Field) : bool :=
  match f with
  | FPlay _ => true
  | _ => false
  end.

(** The order in which [analyze_stock] can append signals. *)
Definition evaluation_order : list SignalName :=
  [ EarningsESP; InsiderActivity; AnalystActivity; PriceMomentum;
    PriceMomentum; HistoricalBeatRate; SectorMomentum ].

(** The ['current'] value of the dict cell of [metric], if any. *)
Definition cell_current (tbl : AnalysisTable) (metric : string) : option Q :=
  match loc metric tbl with
  | Some (CDict d) => current d
  | _ => None
  end.

(** The consensus the ESP evaluator ends up with: the ['current'] of the
    ['Eps Revisions'] cell when it has one, else that of ['Eps Trend']. *)
Definition consensus (tbl : AnalysisTable) : option Q :=
  match cell_current tbl "Eps Revisions" with
  | Some q => Some q
  | None => cell_current tbl "Eps Trend"
  end.

(** *** Prices at which binary64 shows *)

(** The double 208.33333333333334, just above 5000 / 24. *)
Definition price_208 : float := S754_finite false 7330077518506667 (-45).

(** The double 1e-305: positive, and so small that 5000 divided by it
    overflows. *)
Definition price_tiny : float := S754_finite false 7906338019816821 (-1066).

(** An analysis of total score 85 for AAPL. *)
Definition aapl_85 : Analysis :=
  {| a_ticker := "AAPL"; a_company := "Apple Inc.";
     a_earnings_date := days 103; a_sector := "Technology";
     total_score := 85; signals := [] |}%string.

(** [silent], with AAPL quoted at [price]. *)
Definition quoted (price : float) : Provider :=
  {| calendar := calendar silent;
     info :=
       only "AAPL"%string
            (Ok {| longName := None; marketCap := None;
                   info_sector := None; currentPrice := Some price |})
            (Ok blank_info);
     recommendations := recommendations silent;
     analysis := analysis silent;
     insider_transactions := insider_transactions silent;
     history_1mo := history_1mo silent;
     history_10d := history_10d silent;
     earnings_dates := earnings_dates silent |}.

(** *** Revisions without a consensus *)

(** An analysis table with the revision counts only: ten up, two down,
    and no ['current'] estimate in any cell. *)
Definition revisions_table : AnalysisTable :=
  [ ("Eps Revisions",
     CDict {| current := None;
              upLast7days := Some 10; downLast7days := Some 2 |}) ]%string.

Definition revisions_only : Provider :=
  {| calendar := calendar silent;
     info := info silent;
     recommendations := recommendations silent;
     analysis := only "AAPL"%string (Ok (Some revisions_table)) (Ok None);
     insider_transactions := insider_transactions silent;
     history_1mo := history_1mo silent;
     history_10d := history_10d silent;
     earnings_dates := earnings_dates silent |}.

(** *** What an alert field shows of a signal *)

(** The field of a signal. *)
Definition field_of_signal (s : Signal) : Field :=
  let '(signal_name, signal_score, signal_detail) := s in
  FSignal signal_name signal_score signal_detail.

(** The name and score in the title of a signal field, "name (+score)";
    nothing for the other fields. *)
Definition field_label (f : Field) : option (SignalName * Z) :=
  match f with
  | FSignal name score _ => Some (name, score)
  | _ => None
  end.

(** ** Basic facts *)

Lemma extend_zero (a : Analysis) : extend a 0 [] = a.
Proof.
  destruct a; unfold extend; cbn.
  now rewrite Z.add_0_r, app_nil_r.
Qed.

Lemma extend_extend (a : Analysis) (s1 s2 : Z) (l1 l2 : list Signal) :
  extend (extend a s1 l1) s2 l2 = extend a (s1 + s2) (l1 ++ l2).
Proof.
  unfold extend; cbn. now rewrite Z.add_assoc, app_assoc.
Qed.

Lemma add_append (a : Analysis) (s : Z) (sig : Signal) :
  append_signal (add_score a s) sig = extend a s [sig].
Proof. reflexivity. Qed.

Lemma add_only (a : Analysis) (s : Z) : add_score a s = extend a s [].
Proof. unfold add_score, extend. now rewrite app_nil_r. Qed.

Lemma fold_append (a : Analysis) (name : SignalName) (score : Z)
  (ds : list Detail) :
  fold_left (fun a d => append_signal a (name, score, d)) ds a
  = extend a 0 (map (fun d => (name, score, d)) ds).
Proof.
  revert a. induction ds as [| d ds IH]; intros a; cbn.
  - now rewrite extend_zero.
  - rewrite IH. unfold extend, append_signal; cbn.
    now rewrite <- app_assoc.
Qed.

(** *** Ranges of the scoring rules *)

Lemma revision_score_le (tbl : AnalysisTable) : revision_score tbl <= 30.
Proof.
  unfold revision_score.
  destruct (loc _ tbl) as [[d |] |]; try lia.
  destruct (_ <? _); lia.
Qed.

Lemma insider_score_range (n : Z) : 0 <= insider_score n <= 25.
Proof.
  unfold insider_score.
  destruct (3 <=? n), (n =? 2), (n =? 1); lia.
Qed.

Lemma analyst_score_le (u d : Z) : fst (analyst_score_signal u d) <= 20.
Proof.
  unfold analyst_score_signal.
  destruct (d <? u); [cbn; lia |].
  destruct (u <? d); cbn; lia.
Qed.

Lemma momentum_rules_range (x y : npfloat) :
  0 <= fst (momentum_rules x y) <= 25.
Proof.
  unfold momentum_rules.
  destruct (np_gt x 5), (np_gt x 2), (np_gt y (-3)); cbn; lia.
Qed.

Lemma beat_rate_score_range (r : Q) : 0 <= beat_rate_score r <= 20.
Proof.
  unfold beat_rate_score.
  destruct (Qle_bool (75 # 100) r), (Qle_bool (50 # 100) r); lia.
Qed.

Lemma sector_score_range (o : npfloat) : 0 <= sector_score o <= 15.
Proof.
  unfold sector_score.
  destruct (np_gt o 2), (np_gt o 0); lia.
Qed.

(** *** Each step of [analyze_stock] succeeds on an evaluator's result *)

Lemma apply_esp_eval (p : Provider) (t : ticker) (a : Analysis) :
  let r := calculate_earnings_esp p t in
  apply_esp r a = Ok (extend a (esp_score r) (esp_entries r)).
Proof.
  cbv zeta. unfold calculate_earnings_esp.
  assert (D : apply_esp esp_default a
              = Ok (extend a (esp_score esp_default)
                           (esp_entries esp_default))).
  { cbn. now rewrite extend_zero. }
  destruct (recommendations p t) as [_r |]; cbn [bind try_except]; [| exact D].
  destruct (analysis p t) as [[tbl |] |]; cbn [bind try_except]; try exact D.
  destruct (negb (is_empty tbl)); [| exact D].
  destruct (truthy _); [| exact D].
  unfold apply_esp, esp_entries; cbn [has_data esp_score signal_strength].
  destruct (0 <? revision_score tbl); cbn.
  - reflexivity.
  - now rewrite add_only.
Qed.

Lemma apply_insider_eval (now : timestamp) (p : Provider) (t : ticker)
  (a : Analysis) :
  let r := check_insider_activity now p t in
  apply_insider r a = Ok (extend a (ins_score r) (insider_entries r)).
Proof.
  cbv zeta. unfold check_insider_activity.
  assert (D : apply_insider insider_default a
              = Ok (extend a (ins_score insider_default)
                           (insider_entries insider_default))).
  { cbn. now rewrite extend_zero. }
  destruct (insider_transactions p t) as [[tbl |] |];
    cbn [bind try_except]; try exact D.
  destruct (negb _); [| exact D].
  destruct (it_has_transaction tbl); [| exact D].
  destruct (0 <? len _); [| exact D].
  reflexivity.
Qed.

Lemma apply_analyst_eval (now : timestamp) (p : Provider) (t : ticker)
  (a : Analysis) :
  let r := check_analyst_activity now p t in
  apply_analyst r a
  = Ok (extend a (Z.max 0 (ana_score r)) (analyst_entries r)).
Proof.
  cbv zeta. unfold check_analyst_activity.
  assert (D : apply_analyst analyst_default a
              = Ok (extend a (Z.max 0 (ana_score analyst_default))
                           (analyst_entries analyst_default))).
  { cbn. now rewrite extend_zero. }
  destruct (recommendations p t) as [[tbl |] |];
    cbn [bind try_except]; try exact D.
  destruct (negb _); [| exact D].
  destruct (0 <? len _); [| exact D].
  destruct (rt_has_to_grade tbl); [| exact D].
  destruct (analyst_score_signal _ _) as [score signal].
  cbn [try_except].
  unfold apply_analyst, analyst_entries;
    cbn [ana_has_activity ana_score ana_signal andb].
  destruct (0 <? score) eqn:E.
  - apply Z.ltb_lt in E. rewrite Z.max_r by lia. reflexivity.
  - apply Z.ltb_ge in E. rewrite Z.max_l by lia. now rewrite extend_zero.
Qed.

Lemma apply_momentum_eval (p : Provider) (t : ticker) (a : Analysis) :
  let r := check_price_momentum p t in
  apply_momentum r a = Ok (extend a (mom_score r) (momentum_entries r)).
Proof.
  cbv zeta. unfold check_price_momentum.
  assert (D : apply_momentum momentum_default a
              = Ok (extend a (mom_score momentum_default)
                           (momentum_entries momentum_default))).
  { cbn. now rewrite extend_zero. }
  destruct (history_1mo p t) as [hist |]; cbn [bind try_except]; [| exact D].
  destruct (5 <? len hist); [| exact D].
  match goal with
  | |- context [momentum_rules ?x ?y] =>
      pose proof (momentum_rules_range x y) as R;
      destruct (momentum_rules x y) as [score sigs]
  end.
  cbn [fst] in R.
  unfold apply_momentum, momentum_entries;
    cbn [mom_has_momentum mom_score mom_signals get].
  destruct (0 <? score) eqn:E.
  - cbn [getitem bind]. rewrite fold_append, add_only, extend_extend.
    now rewrite Z.add_0_r.
  - apply Z.ltb_ge in E. replace score with 0 by lia.
    now rewrite extend_zero.
Qed.

Lemma apply_history_eval (p : Provider) (t : ticker) (a : Analysis) :
  let r := check_historical_beat_rate p t in
  apply_history r a = Ok (extend a (hist_score r) (history_entries r)).
Proof.
  cbv zeta. unfold check_historical_beat_rate.
  assert (D : apply_history history_default a
              = Ok (extend a (hist_score history_default)
                           (history_entries history_default))).
  { cbn. now rewrite extend_zero. }
  destruct (earnings_dates p t) as [[tbl |] |];
    cbn [bind try_except]; try exact D.
  destruct (negb _); [| exact D].
  destruct (et_has_surprise tbl); [| exact D].
  destruct (0 <? len _); [| exact D].
  reflexivity.
Qed.

Lemma apply_sector_eval (p : Provider) (t : ticker) (sector : string)
  (a : Analysis) :
  let r := check_sector_momentum p t sector in
  apply_sector r a = Ok (extend a (sec_score r) (sector_entries r)).
Proof.
  cbv zeta. unfold check_sector_momentum.
  assert (D : apply_sector sector_default a
              = Ok (extend a (sec_score sector_default)
                           (sector_entries sector_default))).
  { cbn. now rewrite extend_zero. }
  destruct (loc sector sector_etfs) as [etf |]; cbn [try_except]; [| exact D].
  destruct (history_10d p etf) as [etf_hist |];
    cbn [bind try_except]; [| exact D].
  destruct (history_10d p "SPY"%string) as [spy_hist |];
    cbn [bind try_except]; [| exact D].
  destruct (andb _ _); [| exact D].
  match goal with
  | |- context [sector_score ?o] =>
      pose proof (sector_score_range o) as R;
      generalize dependent (sector_score o); intros score R
  end.
  unfold apply_sector, sector_entries;
    cbn [sec_has_momentum sec_score sec_signal].
  destruct (0 <? score) eqn:E.
  - reflexivity.
  - apply Z.ltb_ge in E. replace score with 0 by lia.
    now rewrite extend_zero.
Qed.

(** [analyze_stock] never raises. *)
Lemma analyze_stock_eq (now : timestamp) (p : Provider) (c : Candidate) :
  analyze_stock now p c = Ok (analysis_of now p c).
Proof.
  unfold analysis_of. cbv zeta. unfold analyze_stock.
  rewrite apply_esp_eval. cbn [bind].
  rewrite apply_insider_eval. cbn [bind].
  rewrite apply_analyst_eval. cbn [bind].
  rewrite apply_momentum_eval. cbn [bind].
  rewrite apply_history_eval. cbn [bind].
  rewrite apply_sector_eval. cbn [bind].
  rewrite !extend_extend.
  unfold extend, displayed, evaluate;
    cbn [a_ticker a_company a_earnings_date a_sector total_score signals
         ev_esp ev_insider ev_analyst ev_momentum ev_history ev_sector app].
  rewrite <- ?app_assoc.
  f_equal. f_equal. lia.
Qed.

(** *** Names of the displayed entries *)

Lemma entry_of_name (f : Signal -> bool) (name : SignalName) (score : Z)
  (d : option Detail) :
  (forall s, signal_name s = name -> f s = false) ->
  existsb f (entry_of name score d) = false.
Proof.
  intros H. destruct d as [detail |]; cbn; [| reflexivity].
  now rewrite H.
Qed.

Lemma momentum_entries_not_analyst (r : MomentumResult) :
  existsb is_analyst (momentum_entries r) = false.
Proof.
  unfold momentum_entries. destruct (0 <? mom_score r); [| reflexivity].
  induction (get (mom_signals r) []) as [| d ds IH]; cbn; auto.
Qed.

Lemma analyst_entries_nonpositive (r : AnalystResult) :
  ana_score r <= 0 -> analyst_entries r = [].
Proof.
  intros H. unfold analyst_entries.
  apply Z.ltb_ge in H. now rewrite H.
Qed.

Lemma len_nonneg {A} (l : list A) : 0 <= len l.
Proof. unfold len. lia. Qed.

(** The analyst score is -10, 0, or between 7 and 20. *)
Lemma analyst_score_cases (now : timestamp) (p : Provider) (t : ticker) :
  let s := ana_score (check_analyst_activity now p t) in
  s = -10 \/ s = 0 \/ 7 <= s <= 20.
Proof.
  cbv zeta. unfold check_analyst_activity.
  destruct (recommendations p t) as [[tbl |] |];
    cbn [bind try_except]; try (cbn; lia).
  destruct (negb _); [| cbn; lia].
  destruct (0 <? len _); [| cbn; lia].
  destruct (rt_has_to_grade tbl); [| cbn; lia].
  match goal with
  | |- context [analyst_score_signal ?u ?d] =>
      pose proof
        (len_nonneg
           (filter
              (fun r =>
                 str_contains ["Sell"; "Underperform"; "Underweight"]%string
                              (rr_to_grade r))
              (filter (fun r => now - days 30 <? rr_date r) (rt_rows tbl))))
        as Hd;
      unfold analyst_score_signal;
      generalize dependent u; generalize dependent d
  end.
  intros d Hd u.
  destruct (d <? u) eqn:E1; cbn.
  - apply Z.ltb_lt in E1. lia.
  - destruct (u <? d); cbn; lia.
Qed.

(** ** Claims *)

(** C1, as the code has it: when the Analyst Activity evaluator returns a
    negative score (net downgrades, -10), the analysis completes, no analyst
    entry is displayed, and the -10 is left out of the total as well: the
    total is the sum of the other five evaluator scores, that is, the sum of
    all six minus the analyst's negative score. *)
Theorem analyst_negative_left_out_of_total (now : timestamp) (p : Provider)
  (c : Candidate) :
  let e := evaluate now p c in
  ana_score (ev_analyst e) < 0 ->
  exists a,
    analyze_stock now p c = Ok a
    /\ ana_score (ev_analyst e) = -10
    /\ existsb is_analyst (signals a) = false
    /\ total_score a
       = esp_score (ev_esp e) + ins_score (ev_insider e)
         + mom_score (ev_momentum e) + hist_score (ev_history e)
         + sec_score (ev_sector e)
    /\ total_score a = sum_of_scores e - ana_score (ev_analyst e).
Proof.
  cbv zeta. intros Hneg.
  eexists. split; [apply analyze_stock_eq |].
  unfold analysis_of. cbv zeta. cbn [signals total_score].
  pose proof (analyst_score_cases now p (c_ticker c)) as Hc.
  cbv zeta in Hc. cbn [evaluate ev_analyst] in Hneg |- *.
  split; [lia |].
  split.
  - unfold displayed. cbn [evaluate ev_esp ev_insider ev_analyst ev_momentum
                             ev_history ev_sector].
    rewrite !existsb_app.
    rewrite analyst_entries_nonpositive by lia.
    rewrite momentum_entries_not_analyst.
    unfold esp_entries, insider_entries, history_entries, sector_entries.
    repeat match goal with
           | |- context [if ?b then _ else _] => destruct b
           end;
      rewrite ?entry_of_name; cbn; auto;
      intros s Hs; unfold is_analyst; now rewrite Hs.
  - unfold sum_of_scores.
    cbn [evaluate ev_esp ev_insider ev_analyst ev_momentum
                  ev_history ev_sector].
    rewrite Z.max_l by lia. lia.
Qed.

Lemma analyst_negative_left_out_of_total_witness :
  ana_score (ev_analyst (evaluate day100 downgraded aapl)) < 0
  /\ exists a,
       analyze_stock day100 downgraded aapl = Ok a
       /\ total_score a = 0.
Proof.
  split; [vm_compute; reflexivity |].
  destruct (analyst_negative_left_out_of_total day100 downgraded aapl)
    as [a [Ha [_ [_ [Ht _]]]]]; [vm_compute; reflexivity |].
  exists a. split; [exact Ha |].
  rewrite Ht. vm_compute. reflexivity.
Defined.

(** C1 as stated fails: with one recent downgrade and nothing else, the
    analyst score is -10 but the total is 0, not the sum -10 of the six
    evaluator scores. *)
Lemma analyst_negative_not_subtracted :
  ana_score (ev_analyst (evaluate day100 downgraded aapl)) = -10
  /\ sum_of_scores (evaluate day100 downgraded aapl) = -10
  /\ exists a,
       analyze_stock day100 downgraded aapl = Ok a
       /\ total_score a = 0
       /\ total_score a <> sum_of_scores (evaluate day100 downgraded aapl).
Proof.
  split; [vm_compute; reflexivity |].
  split; [vm_compute; reflexivity |].
  eexists. split; [vm_compute; reflexivity |].
  split; [reflexivity |].
  vm_compute. discriminate.
Qed.

(** *** The scan loop and the sort *)

Lemma scan_step_eq (now : timestamp) (p : Provider) (c : Candidate)
  (hp : list Analysis) (log : list LogLine) :
  scan_step now p (hp, log) c
  = (hp ++ filter qualifies [analysis_of now p c],
     log ++ [log_line c (analysis_of now p c)]).
Proof.
  unfold scan_step. rewrite analyze_stock_eq.
  unfold log_line, qualifies. cbn [filter].
  destruct (alert_threshold <=? total_score (analysis_of now p c)).
  - reflexivity.
  - now rewrite app_nil_r.
Qed.

Lemma scan_loop (now : timestamp) (p : Provider) (cs : list Candidate)
  (hp : list Analysis) (log : list LogLine) :
  fold_left (scan_step now p) cs (hp, log)
  = (hp ++ filter qualifies (map (analysis_of now p) cs),
     log ++ map (fun c => log_line c (analysis_of now p c)) cs).
Proof.
  revert hp log. induction cs as [| c cs IH]; intros hp log.
  - cbn. now rewrite !app_nil_r.
  - cbn [fold_left]. rewrite scan_step_eq, IH.
    change (map (analysis_of now p) (c :: cs))
      with ([analysis_of now p c] ++ map (analysis_of now p) cs).
    rewrite filter_app, <- !app_assoc. reflexivity.
Qed.

Lemma run_scan_eq (now : timestamp) (p : Provider) :
  let upcoming := get_upcoming_earnings now p 7 in
  let analyses := map (analysis_of now p) upcoming in
  run_scan now p
  = if is_empty upcoming then
      {| scan_log := []; alerts_sent := []; returned := None |}
    else
      {| scan_log := map (fun c => log_line c (analysis_of now p c)) upcoming;
         alerts_sent :=
           map (send_earnings_alert now p)
               (sorted_desc (filter qualifies analyses));
         returned := Some (filter qualifies analyses) |}.
Proof.
  cbv zeta. unfold run_scan.
  destruct (is_empty _); [reflexivity |].
  now rewrite scan_loop.
Qed.

Lemma insert_desc_perm (a : Analysis) (l : list Analysis) :
  Permutation (insert_desc a l) (a :: l).
Proof.
  induction l as [| b l IH]; cbn.
  - apply Permutation_refl.
  - destruct (total_score b <=? total_score a).
    + apply Permutation_refl.
    + eapply perm_trans; [apply perm_skip, IH | apply perm_swap].
Qed.

Lemma sorted_desc_perm (l : list Analysis) : Permutation (sorted_desc l) l.
Proof.
  induction l as [| a l IH]; cbn.
  - apply perm_nil.
  - eapply perm_trans; [apply insert_desc_perm | now apply perm_skip].
Qed.

Lemma alerted_eq (now : timestamp) (p : Provider) :
  alerted now p
  = sorted_desc
      (filter qualifies
              (map (analysis_of now p) (get_upcoming_earnings now p 7))).
Proof.
  unfold alerted. pose proof (run_scan_eq now p) as H. cbv zeta in H.
  rewrite H.
  destruct (get_upcoming_earnings now p 7); reflexivity.
Qed.

Lemma alerts_sent_eq (now : timestamp) (p : Provider) :
  alerts_sent (run_scan now p)
  = map (send_earnings_alert now p) (alerted now p).
Proof.
  rewrite alerted_eq. pose proof (run_scan_eq now p) as H. cbv zeta in H.
  rewrite H.
  destruct (get_upcoming_earnings now p 7); reflexivity.
Qed.

(** C2: in every run, one alert is sent per member of the alert set, and a
    candidate's analysis is in the alert set exactly when its total score is
    at least 70: the alert set is, up to order, the analyses of the
    candidates filtered by [70 <= total_score]. *)
Theorem alert_iff_threshold (now : timestamp) (p : Provider) :
  let upcoming := get_upcoming_earnings now p 7 in
  alert_threshold = 70
  /\ alerts_sent (run_scan now p)
     = map (send_earnings_alert now p) (alerted now p)
  /\ Permutation (alerted now p)
       (filter (fun a => 70 <=? total_score a)
               (map (analysis_of now p) upcoming))
  /\ (forall c, In c upcoming ->
        analyze_stock now p c = Ok (analysis_of now p c))
  /\ (forall a, In a (alerted now p) <->
        (exists c, In c upcoming /\ analyze_stock now p c = Ok a)
        /\ 70 <= total_score a).
Proof.
  cbv zeta.
  split; [reflexivity |].
  split; [apply alerts_sent_eq |].
  split; [rewrite alerted_eq; apply sorted_desc_perm |].
  split; [intros c _; apply analyze_stock_eq |].
  intros a. rewrite alerted_eq.
  split.
  - intros H.
    apply (Permutation_in a (sorted_desc_perm _)) in H.
    apply filter_In in H. destruct H as [H Hq].
    apply in_map_iff in H. destruct H as [c [Hc Hin]].
    split.
    + exists c. split; [exact Hin |].
      rewrite analyze_stock_eq, Hc. reflexivity.
    + apply Z.leb_le. exact Hq.
  - intros [[c [Hin Hc]] Hs].
    apply (Permutation_in a (Permutation_sym (sorted_desc_perm _))).
    apply filter_In. split.
    + apply in_map_iff. exists c. split; [| exact Hin].
      rewrite analyze_stock_eq in Hc. injection Hc as Hc. exact Hc.
    + apply Z.leb_le. exact Hs.
Qed.

(** *** Historical beat rate *)

Lemma firstn_reported (n : nat) (rows : list (option Q)) :
  forallb is_reported (firstn n rows) = true ->
  firstn n (filter is_reported rows) = firstn n rows.
Proof.
  revert rows. induction n as [| n IH]; intros rows H; [reflexivity |].
  destruct rows as [| r rows]; [reflexivity |].
  cbn [firstn forallb] in H. apply andb_prop in H. destruct H as [Hr H].
  cbn [filter]. rewrite Hr. cbn [firstn]. now rewrite IH.
Qed.

(** What the evaluator computes on a table with the surprise column: the
    rate of positive surprises among the first four rows, every one of
    these rows counted in the denominator. *)
Lemma check_historical_beat_rate_eq (p : Provider) (t : ticker)
  (tbl : EarningsTable) :
  earnings_dates p t = Ok (Some tbl) ->
  et_has_surprise tbl = true ->
  et_rows tbl <> [] ->
  let recent := firstn 4 (et_rows tbl) in
  let beats := len (filter is_beat recent) in
  let total := len recent in
  let r := check_historical_beat_rate p t in
  has_history r = true
  /\ beats_total r = Some (beats, total)
  /\ hist_score r = beat_rate_score (inject_Z beats / inject_Z total)%Q.
Proof.
  intros Hf Hc Hne. cbv zeta. unfold check_historical_beat_rate.
  rewrite Hf. cbn [bind try_except]. rewrite Hc.
  destruct (et_rows tbl) as [| r rows] eqn:E; [congruence |].
  cbn [is_empty negb].
  replace (0 <? len (firstn 4 (r :: rows))) with true; [cbn; auto |].
  symmetry. apply Z.ltb_lt. unfold len. cbn. lia.
Qed.

(** On a table whose first four rows all carry a surprise value, the
    evaluator agrees with the specification's wording. *)
Lemma beat_rate_agrees_when_reported (p : Provider) (t : ticker)
  (tbl : EarningsTable) :
  earnings_dates p t = Ok (Some tbl) ->
  et_has_surprise tbl = true ->
  et_rows tbl <> [] ->
  forallb is_reported (firstn 4 (et_rows tbl)) = true ->
  hist_score (check_historical_beat_rate p t)
  = claimed_beat_rate_score (et_rows tbl).
Proof.
  intros Hf Hc Hne Hrep.
  destruct (check_historical_beat_rate_eq p t tbl Hf Hc Hne) as [_ [_ Hs]].
  rewrite Hs. unfold claimed_beat_rate_score.
  rewrite (firstn_reported 4 _ Hrep).
  destruct (et_rows tbl) as [| r rows] eqn:E; [congruence |].
  replace (0 <? len (firstn 4 (r :: rows))) with true; [reflexivity |].
  symmetry. apply Z.ltb_lt. unfold len. cbn. lia.
Qed.

(** C3, where the code departs from it: with two scheduled, unreported
    dates above two reported beats, [check_historical_beat_rate] counts 2
    beats out of 4 rows (rate 50%, score 10), whereas the beat rate over the
    reported quarters is 2 out of 2 (100%, score 20). *)
Theorem beat_rate_counts_unreported_rows :
  let r := check_historical_beat_rate pending "AAPL"%string in
  has_history r = true
  /\ beats_total r = Some (2, 4)
  /\ hist_score r = 10
  /\ claimed_beat_rate_score pending_rows = 20
  /\ hist_score r <> claimed_beat_rate_score pending_rows.
Proof.
  cbv zeta.
  split; [vm_compute; reflexivity |].
  split; [vm_compute; reflexivity |].
  split; [vm_compute; reflexivity |].
  split; [vm_compute; reflexivity |].
  vm_compute. discriminate.
Qed.

(** *** Estimate revisions *)

Lemma calculate_earnings_esp_score_le (p : Provider) (t : ticker) :
  esp_score (calculate_earnings_esp p t) <= 30.
Proof.
  unfold calculate_earnings_esp.
  destruct (recommendations p t) as [_r |]; cbn [bind try_except];
    [| cbn; lia].
  destruct (analysis p t) as [[tbl |] |]; cbn [bind try_except];
    try (cbn; lia).
  destruct (negb _); [| cbn; lia].
  destruct (truthy _); [| cbn; lia].
  cbn [esp_score]. apply revision_score_le.
Qed.

(** When the evaluator has data, its score is the revision score of the
    table it fetched. *)
Lemma calculate_earnings_esp_has_data (p : Provider) (t : ticker)
  (tbl : AnalysisTable) :
  analysis p t = Ok (Some tbl) ->
  has_data (calculate_earnings_esp p t) = true ->
  esp_score (calculate_earnings_esp p t) = revision_score tbl.
Proof.
  intros Ha. unfold calculate_earnings_esp.
  destruct (recommendations p t) as [_r |]; cbn [bind try_except];
    [| cbn; discriminate].
  rewrite Ha. cbn [bind try_except].
  destruct (negb _); [| cbn; discriminate].
  destruct (truthy _); [| cbn; discriminate].
  reflexivity.
Qed.

Lemma mean_estimate_consensus (tbl : AnalysisTable) :
  fold_left (read_current tbl) ["Eps Trend"; "Eps Revisions"]%string None
  = consensus tbl.
Proof.
  cbn [fold_left]. unfold read_current, consensus, cell_current.
  destruct (loc "Eps Revisions" tbl) as [[d |] |];
    destruct (loc "Eps Trend" tbl) as [[d' |] |];
    repeat match goal with
           | |- context [current ?x] => destruct (current x)
           end;
    reflexivity.
Qed.

(** What the evaluator returns once the recommendations and the analysis
    table are read and the table yields a non-zero consensus. *)
Lemma calculate_earnings_esp_data (p : Provider) (t : ticker)
  (recs : option RecTable) (tbl : AnalysisTable) (q : Q) :
  recommendations p t = Ok recs ->
  analysis p t = Ok (Some tbl) ->
  tbl <> [] ->
  consensus tbl = Some q ->
  ~ (q == 0)%Q ->
  calculate_earnings_esp p t
  = {| has_data := true;
       esp_score := revision_score tbl;
       mean_estimate := Some q;
       signal_strength := Some (strength_of (revision_score tbl)) |}.
Proof.
  intros Hr Ha Hne Hc Hq. unfold calculate_earnings_esp.
  rewrite Hr, Ha. cbn [bind try_except].
  destruct tbl as [| row tbl]; [congruence |]. cbn [is_empty negb].
  rewrite mean_estimate_consensus, Hc. cbn [truthy].
  replace (Qeq_bool q 0) with false; [reflexivity |].
  symmetry. apply not_true_is_false. intros H.
  apply Qeq_bool_iff in H. contradiction.
Qed.

Lemma calculate_earnings_esp_no_consensus (p : Provider) (t : ticker)
  (tbl : AnalysisTable) :
  analysis p t = Ok (Some tbl) ->
  (forall q, consensus tbl = Some q -> (q == 0)%Q) ->
  calculate_earnings_esp p t = esp_default.
Proof.
  intros Ha Hc. unfold calculate_earnings_esp.
  destruct (recommendations p t); cbn [bind try_except]; [| reflexivity].
  rewrite Ha. cbn [bind try_except].
  destruct (negb _); [| reflexivity].
  rewrite mean_estimate_consensus.
  destruct (consensus tbl) as [q |]; cbn [truthy]; [| reflexivity].
  replace (Qeq_bool q 0) with true; [reflexivity |].
  symmetry. apply Qeq_bool_iff. now apply Hc.
Qed.

(** C4, as the code has it: the Estimate-Revision score never exceeds 30.
    When the recommendations can be read, the analysis table yields a
    non-zero mean estimate (the ['current'] of ['Eps Revisions'], else of
    ['Eps Trend']) and its ['Eps Revisions'] cell holds the revision
    counts, the evaluator has data and scores [min(30, 5 * up)] when the
    7-day upward revisions exceed the downward ones and 0 otherwise.  When
    the table yields no mean estimate, or a zero one, the result is the
    default, of score 0, whatever the revision counts. *)
Theorem esp_score_rule :
  (forall p t, esp_score (calculate_earnings_esp p t) <= 30)
  /\ (forall p t recs tbl q revisions,
        recommendations p t = Ok recs ->
        analysis p t = Ok (Some tbl) ->
        consensus tbl = Some q ->
        ~ (q == 0)%Q ->
        loc "Eps Revisions"%string tbl = Some (CDict revisions) ->
        let up := get (upLast7days revisions) 0 in
        let down := get (downLast7days revisions) 0 in
        has_data (calculate_earnings_esp p t) = true
        /\ esp_score (calculate_earnings_esp p t)
           = if down <? up then Z.min 30 (5 * up) else 0)
  /\ (forall p t tbl,
        analysis p t = Ok (Some tbl) ->
        (forall q, consensus tbl = Some q -> (q == 0)%Q) ->
        calculate_earnings_esp p t = esp_default).
Proof.
  split; [apply calculate_earnings_esp_score_le |].
  split; [| apply calculate_earnings_esp_no_consensus].
  intros p t recs tbl q revisions Hr Ha Hc Hq Hl. cbv zeta.
  assert (Hne : tbl <> []) by (intros ->; discriminate).
  rewrite (calculate_earnings_esp_data p t recs tbl q Hr Ha Hne Hc Hq).
  cbn [has_data esp_score]. split; [reflexivity |].
  unfold revision_score. rewrite Hl.
  now rewrite (Z.mul_comm 5).
Qed.

(** Ten upward revisions against two downward ones score 30, not 50, on
    a consensus of 1.5; the same revisions without a consensus score 0. *)
Lemma esp_score_rule_witness :
  has_data (calculate_earnings_esp rich "AAPL"%string) = true
  /\ esp_score (calculate_earnings_esp rich "AAPL"%string) = 30
  /\ calculate_earnings_esp revisions_only "AAPL"%string = esp_default.
Proof.
  destruct esp_score_rule as [_ [Hd Hn]].
  destruct (Hd rich "AAPL"%string None aapl_analysis (3 # 2)
              {| current := None;
                 upLast7days := Some 10; downLast7days := Some 2 |})
    as [H1 H2]; try reflexivity; try discriminate.
  split; [exact H1 |].
  split; [rewrite H2; reflexivity |].
  apply (Hn revisions_only "AAPL"%string revisions_table).
  - reflexivity.
  - intros q Hq. discriminate.
Defined.

(** C4 as stated fails: the revision data is available, with ten upward
    revisions against two downward ones, but the table has no mean
    estimate, so the evaluator reports no data and scores 0, not
    min(30, 5 * 10) = 30. *)
Lemma esp_zero_without_consensus :
  analysis revisions_only "AAPL"%string = Ok (Some revisions_table)
  /\ loc "Eps Revisions"%string revisions_table
     = Some (CDict {| current := None;
                      upLast7days := Some 10; downLast7days := Some 2 |})
  /\ esp_score (calculate_earnings_esp revisions_only "AAPL"%string) = 0
  /\ esp_score (calculate_earnings_esp revisions_only "AAPL"%string)
     <> Z.min 30 (5 * 10).
Proof.
  split; [reflexivity |].
  split; [reflexivity |].
  split; [reflexivity |].
  vm_compute. discriminate.
Qed.

(** *** Position sizing *)

Lemma int_of_float_floor (m : positive) (e : Z) :
  int_of_float (S754_finite false m e)
  = Ok (Qfloor (value (S754_finite false m e))).
Proof.
  unfold int_of_float, value. f_equal.
  destruct e as [| k | k].
  - now rewrite Qfloor_Z.
  - now rewrite Qfloor_Z.
  - unfold Qfloor. now rewrite Pos2Z.inj_pow.
Qed.

(** Rounding keeps the sign it is given. *)
Lemma binary_round_aux_sign (s : bool) (m e : Z) (l : location) :
  match binary_round_aux 53 1024 s m e l with
  | S754_zero s' | S754_infinity s' | S754_finite s' _ _ => s' = s
  | S754_nan => True
  end.
Proof.
  unfold binary_round_aux.
  destruct (shr_fexp 53 1024 m e l) as [mrs' e'].
  destruct (shr_fexp 53 1024 _ e' loc_Exact) as [mrs'' e''].
  destruct (shr_m mrs''); [reflexivity | | exact I].
  destruct (Z.leb e'' (1024 - 53)); reflexivity.
Qed.

Lemma positive_price (price : float) :
  fltb (of_int 0) price = true ->
  price = S754_infinity false \/ exists m e, price = S754_finite false m e.
Proof.
  change (of_int 0) with (S754_zero false).
  destruct price as [s | [|] | | [|] m e]; cbn; try discriminate; eauto.
Qed.

(** The quotient of a positive finite number by a positive price is not
    negative. *)
Lemma fdiv_positive (mx : positive) (ex : Z) (price : float) :
  fltb (of_int 0) price = true ->
  match fdiv (S754_finite false mx ex) price with
  | S754_zero s | S754_infinity s | S754_finite s _ _ => s = false
  | S754_nan => True
  end.
Proof.
  intros H. destruct (positive_price price H) as [-> | [m [e ->]]].
  - reflexivity.
  - unfold fdiv, SFdiv.
    destruct (SFdiv_core_binary 53 1024 (Zpos mx) ex (Zpos m) e)
      as [[mz ez] lz].
    apply (binary_round_aux_sign (xorb false false)).
Qed.

(** [int(notional / price)] for a positive price: the floor of the
    binary64 quotient when it is finite, an exception otherwise. *)
Lemma shares_of_quotient (mx : positive) (ex : Z) (price : float) :
  fltb (of_int 0) price = true ->
  let quotient := fdiv (S754_finite false mx ex) price in
  (q <- truediv (S754_finite false mx ex) price ;; int_of_float q)
  = if is_finite quotient then Ok (Qfloor (value quotient)) else Raise.
Proof.
  intros H. cbv zeta.
  pose proof (fdiv_positive mx ex price H) as Hs.
  replace (truediv (S754_finite false mx ex) price)
    with (Ok (fdiv (S754_finite false mx ex) price)).
  - cbn [bind].
    destruct (fdiv (S754_finite false mx ex) price) as [s | s | | s m e];
      try reflexivity.
    subst s. cbn [is_finite]. apply int_of_float_floor.
  - destruct (positive_price price H) as [-> | [m [e ->]]]; reflexivity.
Qed.

(** The play computed for a positive price. *)
Lemma suggested_play_eq (score : Z) (price : float) :
  fltb (of_int 0) price = true ->
  let quotient := fdiv (of_int (notional_of score)) price in
  let stop := fst (tier_pcts score) in
  let target := snd (tier_pcts score) in
  suggested_play score price
  = if is_finite quotient then
      Ok {| shares := Qfloor (value quotient);
            play_price := price;
            stop_price :=
              fmul price (fsub (of_int 1) (fdiv (of_int stop) (of_int 100)));
            stop_pct := stop;
            target_price :=
              fmul price
                   (fadd (of_int 1) (fdiv (of_int target) (of_int 100)));
            target_pct := target;
            risk_reward := fdiv (of_int target) (of_int stop) |}
    else Raise.
Proof.
  intros H. cbv zeta. unfold suggested_play, notional_of, tier_pcts.
  destruct (80 <=? score); [| destruct (70 <=? score)]; cbn [fst snd].
  - change (of_int 5000) with (S754_finite false 5497558138880000 (-40)).
    rewrite (shares_of_quotient _ _ price H).
    destruct (is_finite _); reflexivity.
  - change (of_int 3000) with (S754_finite false 6597069766656000 (-41)).
    rewrite (shares_of_quotient _ _ price H).
    destruct (is_finite _); reflexivity.
  - change (of_int 2000) with (S754_finite false 8796093022208000 (-42)).
    rewrite (shares_of_quotient _ _ price H).
    destruct (is_finite _); reflexivity.
Qed.

Lemma play_fields_positive (p : Provider) (t : ticker) (score : Z)
  (i : Info) (price : float) :
  info p t = Ok i ->
  currentPrice i = Some price ->
  fltb (of_int 0) price = true ->
  play_fields p t score
  = match suggested_play score price with
    | Ok play => [FPlay play]
    | Raise => []
    end.
Proof.
  intros Hi Hc Hp. unfold play_fields. rewrite Hi. cbn [bind].
  rewrite Hc. cbn [get]. rewrite Hp.
  destruct (suggested_play score price); reflexivity.
Qed.

Lemma al_fields_eq (now : timestamp) (p : Provider) (a : Analysis) :
  al_fields (send_earnings_alert now p a)
  = signal_fields a
    ++ play_fields p (a_ticker a) (total_score a) ++ [FDisclaimer].
Proof.
  unfold send_earnings_alert.
  destruct (confidence_of (total_score a)). cbn [al_fields].
  unfold signal_fields. now rewrite <- app_assoc.
Qed.

(** C5, as the code computes it in binary64.  For an analysis whose ticker
    has a positive current price, the notional is $5,000 at a score of 80
    or more, $3,000 from 70 to 79 and $2,000 below.  When the binary64
    quotient notional / price is finite, the alert carries the suggested
    play after the signal fields: its share count is the floor of that
    quotient, its stop / target percentages are 7/15, 8/12 and 10/10, its
    stop and target prices are the binary64 products of the price with
    1 - stop%/100 and 1 + target%/100, and its risk-reward is the binary64
    quotient target% / stop%.  When the quotient is not finite, no play is
    shown.  At score 85 and price $250: 20 shares, a stop shown as $232.50,
    a target shown as $287.50, and the double nearest 15/7, shown as 2.1. *)
Theorem suggested_play_rule :
  (forall now p a i price,
      info p (a_ticker a) = Ok i ->
      currentPrice i = Some price ->
      fltb (of_int 0) price = true ->
      let score := total_score a in
      let quotient := fdiv (of_int (notional_of score)) price in
      notional_of score
      = (if 80 <=? score then 5000
         else if score <? 70 then 2000 else 3000)
      /\ (is_finite quotient = true ->
          exists play,
            al_fields (send_earnings_alert now p a)
            = signal_fields a ++ [FPlay play; FDisclaimer]
            /\ shares play = Qfloor (value quotient)
            /\ (stop_pct play, target_pct play) = tier_pcts score
            /\ stop_price play
               = fmul price
                      (fsub (of_int 1)
                            (fdiv (of_int (stop_pct play)) (of_int 100)))
            /\ target_price play
               = fmul price
                      (fadd (of_int 1)
                            (fdiv (of_int (target_pct play)) (of_int 100)))
            /\ risk_reward play
               = fdiv (of_int (target_pct play)) (of_int (stop_pct play)))
      /\ (is_finite quotient = false ->
          al_fields (send_earnings_alert now p a)
          = signal_fields a ++ [FDisclaimer]))
  /\ (exists play,
        suggested_play 85 (of_int 250) = Ok play
        /\ shares play = 20
        /\ shown_cents (stop_price play) = 23250
        /\ shown_cents (target_price play) = 28750
        /\ risk_reward play = fdiv (of_int 15) (of_int 7)
        /\ (Qabs (value (risk_reward play) - (15 # 7)) < 1 # 2 ^ 52)%Q
        /\ shown_tenths (risk_reward play) = 21).
Proof.
  split.
  - intros now p a i price Hi Hc Hp. cbv zeta.
    split.
    { unfold notional_of.
      destruct (80 <=? total_score a); [reflexivity |].
      destruct (70 <=? total_score a) eqn:E.
      - apply Z.leb_le in E.
        replace (total_score a <? 70) with false; [reflexivity |].
        symmetry. apply Z.ltb_ge. lia.
      - apply Z.leb_gt in E.
        replace (total_score a <? 70) with true; [reflexivity |].
        symmetry. apply Z.ltb_lt. lia. }
    rewrite al_fields_eq.
    rewrite (play_fields_positive _ _ _ _ _ Hi Hc Hp).
    pose proof (suggested_play_eq (total_score a) price Hp) as E.
    cbv zeta in E. rewrite E.
    split; intros Hf; rewrite Hf; [| reflexivity].
    eexists. split; [reflexivity |].
    cbn [shares stop_pct target_pct stop_price target_price risk_reward].
    repeat split. now destruct (tier_pcts (total_score a)).
  - eexists. split; [vm_compute; reflexivity |].
    repeat split; vm_compute; reflexivity.
Qed.

(** AAPL in [rich] is alerted at 75 with a price of $250: 12 shares. *)
Lemma suggested_play_rule_witness :
  exists play,
    al_fields (send_earnings_alert day100 rich (analysis_of day100 rich aapl))
    = signal_fields (analysis_of day100 rich aapl)
      ++ [FPlay play; FDisclaimer]
    /\ shares play = 12
    /\ shown_cents (stop_price play) = 23000.
Proof.
  destruct (proj1 suggested_play_rule day100 rich
              (analysis_of day100 rich aapl) aapl_info (of_int 250))
    as [_ [Hf _]];
    [vm_compute; reflexivity | vm_compute; reflexivity
     | vm_compute; reflexivity |].
  destruct Hf as [play [Ha [Hs [Hpct [Hst _]]]]]; [vm_compute; reflexivity |].
  exists play. split; [exact Ha |].
  split.
  - rewrite Hs. vm_compute. reflexivity.
  - assert (Ht : tier_pcts (total_score (analysis_of day100 rich aapl))
                 = (8, 12)) by (vm_compute; reflexivity).
    rewrite Ht in Hpct. injection Hpct as H8 _.
    rewrite Hst, H8. vm_compute. reflexivity.
Defined.

(** C5 as stated fails at a price of 208.33333333333334 and a score of
    85: the exact quotient 5000 / price is just below 24, so its floor is
    23, but the binary64 quotient is 24.0 and the play buys 24 shares.  And
    at the positive price 1e-305 the quotient overflows, [int] raises, and
    the alert has no suggested play at all. *)
Lemma shares_above_exact_floor :
  fltb (of_int 0) price_208 = true
  /\ Qfloor (5000 / value price_208) = 23
  /\ (exists play,
        al_fields (send_earnings_alert day100 (quoted price_208) aapl_85)
        = [FPlay play; FDisclaimer]
        /\ shares play = 24)
  /\ fltb (of_int 0) price_tiny = true
  /\ al_fields (send_earnings_alert day100 (quoted price_tiny) aapl_85)
     = [FDisclaimer].
Proof.
  split; [vm_compute; reflexivity |].
  split; [vm_compute; reflexivity |].
  split; [eexists; split; vm_compute; reflexivity |].
  split; vm_compute; reflexivity.
Qed.

(** *** Insider activity *)

Lemma insider_score_mono (n m : Z) :
  n <= m -> insider_score n <= insider_score m.
Proof.
  intros H. unfold insider_score.
  destruct (3 <=? n) eqn:N3, (3 <=? m) eqn:M3,
           (n =? 2) eqn:N2, (m =? 2) eqn:M2,
           (n =? 1) eqn:N1, (m =? 1) eqn:M1;
    try lia;
    repeat match goal with
           | H : (_ <=? _) = true |- _ => apply Z.leb_le in H
           | H : (_ <=? _) = false |- _ => apply Z.leb_gt in H
           | H : (_ =? _) = true |- _ => apply Z.eqb_eq in H
           | H : (_ =? _) = false |- _ => apply Z.eqb_neq in H
           end; lia.
Qed.

Lemma check_insider_activity_score (now : timestamp) (p : Provider)
  (t : ticker) (tbl : InsiderTable) :
  insider_transactions p t = Ok (Some tbl) ->
  it_has_transaction tbl = true ->
  ins_score (check_insider_activity now p t)
  = insider_score
      (len (filter (is_recent_purchase (now - days 30)) (it_rows tbl))).
Proof.
  intros Hf Hc. unfold check_insider_activity.
  rewrite Hf. cbn [bind try_except]. rewrite Hc.
  destruct (it_rows tbl) as [| r rows]; [reflexivity |].
  cbn [is_empty negb].
  destruct (0 <? len _) eqn:E; [reflexivity |].
  apply Z.ltb_ge in E.
  pose proof (len_nonneg
                (filter (is_recent_purchase (now - days 30)) (r :: rows))).
  replace (len (filter (is_recent_purchase (now - days 30)) (r :: rows)))
    with 0 by lia.
  reflexivity.
Qed.

(** C6: the Insider Activity score is the tier of the number [n] of recent
    purchases: 0 for none, 10 for one, 15 for two and 25 for every
    [n >= 3]; it never decreases as [n] grows. *)
Theorem insider_score_monotone_capped :
  (forall now p t tbl,
      insider_transactions p t = Ok (Some tbl) ->
      it_has_transaction tbl = true ->
      let n := len (filter (is_recent_purchase (now - days 30))
                           (it_rows tbl)) in
      ins_score (check_insider_activity now p t) = insider_score n)
  /\ insider_score 0 = 0
  /\ insider_score 1 = 10
  /\ insider_score 2 = 15
  /\ (forall n, 3 <= n -> insider_score n = 25)
  /\ (forall n m, n <= m -> insider_score n <= insider_score m).
Proof.
  split; [intros; now apply check_insider_activity_score |].
  repeat (split; [reflexivity |]).
  split; [| apply insider_score_mono].
  intros n Hn. unfold insider_score.
  apply Z.leb_le in Hn. now rewrite Hn.
Qed.

(** Three recent purchases score 25, and so do ten. *)
Lemma insider_score_monotone_capped_witness :
  ins_score (check_insider_activity day100 rich "AAPL"%string) = 25
  /\ insider_score 10 = 25
  /\ insider_score 2 <= insider_score 3.
Proof.
  destruct insider_score_monotone_capped as [He [_ [_ [_ [Hc Hm]]]]].
  split.
  - rewrite (He day100 rich "AAPL"%string aapl_insiders);
      vm_compute; reflexivity.
  - split.
    + apply Hc. lia.
    + apply Hm. lia.
Defined.

(** *** Ranges of the evaluators' scores *)

Lemma calculate_earnings_esp_score_nonneg (p : Provider) (t : ticker) :
  revisions_nonneg p t -> 0 <= esp_score (calculate_earnings_esp p t).
Proof.
  intros Hnn. unfold calculate_earnings_esp.
  destruct (recommendations p t) as [_r |]; cbn [bind try_except];
    [| cbn; lia].
  destruct (analysis p t) as [[tbl |] |] eqn:Ha; cbn [bind try_except];
    try (cbn; lia).
  destruct (negb _); [| cbn; lia].
  destruct (truthy _); [| cbn; lia].
  cbn [esp_score]. unfold revision_score.
  destruct (loc _ tbl) as [[d |] |] eqn:Hl; try lia.
  destruct (Hnn tbl d Ha Hl) as [Hu Hd].
  destruct (_ <? _); lia.
Qed.

Lemma check_insider_activity_range (now : timestamp) (p : Provider)
  (t : ticker) :
  0 <= ins_score (check_insider_activity now p t) <= 25.
Proof.
  unfold check_insider_activity.
  destruct (insider_transactions p t) as [[tbl |] |];
    cbn [bind try_except]; try (cbn; lia).
  destruct (negb _); [| cbn; lia].
  destruct (it_has_transaction tbl); [| cbn; lia].
  destruct (0 <? len _); [| cbn; lia].
  cbn [ins_score]. apply insider_score_range.
Qed.

Lemma check_price_momentum_range (p : Provider) (t : ticker) :
  0 <= mom_score (check_price_momentum p t) <= 25.
Proof.
  unfold check_price_momentum.
  destruct (history_1mo p t) as [hist |]; cbn [bind try_except];
    [| cbn; lia].
  destruct (5 <? len hist); [| cbn; lia].
  pose proof (momentum_rules_range (pct_change_of hist)
                                   (pct_from_high_of hist)) as R.
  destruct (momentum_rules _ _) as [score sigs]. exact R.
Qed.

Lemma check_historical_beat_rate_range (p : Provider) (t : ticker) :
  0 <= hist_score (check_historical_beat_rate p t) <= 20.
Proof.
  unfold check_historical_beat_rate.
  destruct (earnings_dates p t) as [[tbl |] |];
    cbn [bind try_except]; try (cbn; lia).
  destruct (negb _); [| cbn; lia].
  destruct (et_has_surprise tbl); [| cbn; lia].
  destruct (0 <? len _); [| cbn; lia].
  cbn [hist_score]. apply beat_rate_score_range.
Qed.

Lemma check_sector_momentum_range (p : Provider) (t : ticker)
  (sector : string) :
  0 <= sec_score (check_sector_momentum p t sector) <= 15.
Proof.
  unfold check_sector_momentum.
  destruct (loc sector sector_etfs) as [etf |]; cbn [try_except];
    [| cbn; lia].
  destruct (history_10d p etf) as [etf_hist |];
    cbn [bind try_except]; [| cbn; lia].
  destruct (history_10d p "SPY"%string) as [spy_hist |];
    cbn [bind try_except]; [| cbn; lia].
  destruct (andb _ _); [| cbn; lia].
  cbn [sec_score]. apply sector_score_range.
Qed.

(** C9: when the provider's revision counts are not negative, the analysis
    of a candidate completes with a total between 0 and 135: the
    contributions added to the total are the ESP score in [0, 30], the
    insider score in [0, 25], the analyst score when positive (at most 20),
    the momentum score in [0, 25], the beat-rate score in [0, 20] and the
    sector score in [0, 15]. *)
Theorem total_score_bounds (now : timestamp) (p : Provider) (c : Candidate) :
  revisions_nonneg p (c_ticker c) ->
  let e := evaluate now p c in
  exists a,
    analyze_stock now p c = Ok a
    /\ total_score a
       = esp_score (ev_esp e) + ins_score (ev_insider e)
         + Z.max 0 (ana_score (ev_analyst e))
         + mom_score (ev_momentum e) + hist_score (ev_history e)
         + sec_score (ev_sector e)
    /\ 0 <= esp_score (ev_esp e) <= 30
    /\ 0 <= ins_score (ev_insider e) <= 25
    /\ 0 <= Z.max 0 (ana_score (ev_analyst e)) <= 20
    /\ 0 <= mom_score (ev_momentum e) <= 25
    /\ 0 <= hist_score (ev_history e) <= 20
    /\ 0 <= sec_score (ev_sector e) <= 15
    /\ 0 <= total_score a <= 135.
Proof.
  intros Hnn. cbv zeta.
  exists (analysis_of now p c).
  split; [apply analyze_stock_eq |].
  unfold analysis_of. cbv zeta. cbn [total_score].
  cbn [evaluate ev_esp ev_insider ev_analyst ev_momentum ev_history
       ev_sector].
  pose proof (calculate_earnings_esp_score_nonneg p (c_ticker c) Hnn).
  pose proof (calculate_earnings_esp_score_le p (c_ticker c)).
  pose proof (check_insider_activity_range now p (c_ticker c)).
  pose proof (analyst_score_cases now p (c_ticker c)) as Hc.
  cbv zeta in Hc.
  pose proof (check_price_momentum_range p (c_ticker c)).
  pose proof (check_historical_beat_rate_range p (c_ticker c)).
  pose proof (check_sector_momentum_range p (c_ticker c) (c_sector c)).
  repeat split; lia.
Qed.

(** The bound is reached: on [hot] every evaluator scores its cap. *)
Lemma total_score_bounds_witness :
  revisions_nonneg hot "NVDA"%string
  /\ exists a,
       analyze_stock day100 hot nvda = Ok a
       /\ total_score a = 135
       /\ 0 <= total_score a <= 135.
Proof.
  assert (Hnn : revisions_nonneg hot "NVDA"%string).
  { intros tbl d Ha Hl. vm_compute in Ha. injection Ha as <-.
    vm_compute in Hl. injection Hl as <-. cbn. lia. }
  split; [exact Hnn |].
  destruct (total_score_bounds day100 hot nvda Hnn)
    as [a [Ha [Ht [_ [_ [_ [_ [_ [_ Hb]]]]]]]]].
  exists a. split; [exact Ha |]. split; [| exact Hb].
  rewrite Ht. vm_compute. reflexivity.
Defined.

(** *** Displayed scores against the total *)

Lemma sum_displayed_app (l1 l2 : list Signal) :
  sum_displayed (l1 ++ l2) = sum_displayed l1 + sum_displayed l2.
Proof.
  unfold sum_displayed.
  induction l1 as [| s l1 IH]; cbn [app fold_right]; [reflexivity |].
  rewrite IH. lia.
Qed.

Lemma esp_entries_sum (p : Provider) (t : ticker) :
  let r := calculate_earnings_esp p t in
  sum_displayed (esp_entries r) = Z.max 0 (esp_score r).
Proof.
  cbv zeta. unfold calculate_earnings_esp.
  destruct (recommendations p t) as [_r |]; cbn [bind try_except];
    [| reflexivity].
  destruct (analysis p t) as [[tbl |] |]; cbn [bind try_except];
    try reflexivity.
  destruct (negb _); [| reflexivity].
  destruct (truthy _); [| reflexivity].
  unfold esp_entries. cbn [esp_score signal_strength option_map entry_of].
  destruct (0 <? revision_score tbl) eqn:E; cbn.
  - apply Z.ltb_lt in E. unfold signal_score. cbn. lia.
  - apply Z.ltb_ge in E. lia.
Qed.

Lemma insider_entries_sum (now : timestamp) (p : Provider) (t : ticker) :
  let r := check_insider_activity now p t in
  sum_displayed (insider_entries r) = ins_score r.
Proof.
  cbv zeta. unfold check_insider_activity.
  destruct (insider_transactions p t) as [[tbl |] |];
    cbn [bind try_except]; try reflexivity.
  destruct (negb _); [| reflexivity].
  destruct (it_has_transaction tbl); [| reflexivity].
  destruct (0 <? len _); [| reflexivity].
  unfold insider_entries. cbn. unfold signal_score. cbn. lia.
Qed.

Lemma analyst_entries_sum (now : timestamp) (p : Provider) (t : ticker) :
  let r := check_analyst_activity now p t in
  sum_displayed (analyst_entries r) = Z.max 0 (ana_score r).
Proof.
  cbv zeta. unfold check_analyst_activity.
  destruct (recommendations p t) as [[tbl |] |];
    cbn [bind try_except]; try reflexivity.
  destruct (negb _); [| reflexivity].
  destruct (0 <? len _); [| reflexivity].
  destruct (rt_has_to_grade tbl); [| reflexivity].
  destruct (analyst_score_signal _ _) as [score signal].
  cbn [try_except]. unfold analyst_entries. cbn [ana_score ana_signal].
  destruct (0 <? score) eqn:E; cbn.
  - apply Z.ltb_lt in E. unfold signal_score. cbn. lia.
  - apply Z.ltb_ge in E. lia.
Qed.

Lemma history_entries_sum (p : Provider) (t : ticker) :
  let r := check_historical_beat_rate p t in
  sum_displayed (history_entries r) = hist_score r.
Proof.
  cbv zeta. unfold check_historical_beat_rate.
  destruct (earnings_dates p t) as [[tbl |] |];
    cbn [bind try_except]; try reflexivity.
  destruct (negb _); [| reflexivity].
  destruct (et_has_surprise tbl); [| reflexivity].
  destruct (0 <? len _); [| reflexivity].
  unfold history_entries. cbn. unfold signal_score. cbn. lia.
Qed.

Lemma sector_entries_sum (p : Provider) (t : ticker) (sector : string) :
  let r := check_sector_momentum p t sector in
  sum_displayed (sector_entries r) = sec_score r.
Proof.
  cbv zeta. unfold check_sector_momentum.
  destruct (loc sector sector_etfs) as [etf |]; cbn [try_except];
    [| reflexivity].
  destruct (history_10d p etf) as [etf_hist |];
    cbn [bind try_except]; [| reflexivity].
  destruct (history_10d p "SPY"%string) as [spy_hist |];
    cbn [bind try_except]; [| reflexivity].
  destruct (andb _ _); [| reflexivity].
  unfold sector_entries. cbn [sec_score sec_signal].
  match goal with
  | |- context [sector_score ?o] =>
      pose proof (sector_score_range o) as R;
      generalize dependent (sector_score o); intros score R
  end.
  destruct (0 <? score) eqn:E; cbn.
  - unfold signal_score. cbn. lia.
  - apply Z.ltb_ge in E. lia.
Qed.

(** With both sub-signals firing, the momentum result carries the combined
    score and the two details. *)
Lemma check_price_momentum_both (p : Provider) (t : ticker)
  (hist : list Bar) :
  history_1mo p t = Ok hist ->
  5 < len hist ->
  np_gt (pct_change_of hist) 2%Q = true ->
  np_gt (pct_from_high_of hist) (-3)%Q = true ->
  let m := check_price_momentum p t in
  mom_score m = (if np_gt (pct_change_of hist) 5%Q then 25 else 20)
  /\ momentum_entries m
     = [ (PriceMomentum, mom_score m, DUp10d (pct_change_of hist));
         (PriceMomentum, mom_score m, DNearHighs) ].
Proof.
  intros Hh Hl Hc Hn. cbv zeta. unfold check_price_momentum.
  rewrite Hh. cbn [bind try_except].
  apply Z.ltb_lt in Hl. rewrite Hl.
  unfold momentum_rules. rewrite Hc, Hn.
  destruct (np_gt (pct_change_of hist) 5); split; reflexivity.
Qed.

(** *** Fault isolation *)

Lemma loc_In {A} (k : string) (l : list (string * A)) (v : A) :
  loc k l = Some v -> In v (map snd l).
Proof.
  induction l as [| [k' v'] l IH]; cbn; [discriminate |].
  destruct (String.eqb k' k).
  - intros H. injection H as ->. now left.
  - intros H. right. now apply IH.
Qed.

Lemma evaluate_same_data (now : timestamp) (p p' : Provider)
  (c : Candidate) :
  same_ticker_data p p' (c_ticker c) ->
  same_market_data p p' ->
  evaluate now p c = evaluate now p' c.
Proof.
  intros [Hr [Ha [Hi [Hh He]]]] Hm.
  unfold evaluate. f_equal.
  - unfold calculate_earnings_esp. now rewrite Hr, Ha.
  - unfold check_insider_activity. now rewrite Hi.
  - unfold check_analyst_activity. now rewrite Hr.
  - unfold check_price_momentum. now rewrite Hh.
  - unfold check_historical_beat_rate. now rewrite He.
  - unfold check_sector_momentum.
    destruct (loc (c_sector c) sector_etfs) as [etf |] eqn:E;
      [| reflexivity].
    rewrite (Hm etf) by (right; now apply (loc_In _ _ _ E)).
    rewrite (Hm "SPY"%string) by now left.
    reflexivity.
Qed.

Lemma analysis_of_same_data (now : timestamp) (p p' : Provider)
  (c : Candidate) :
  same_ticker_data p p' (c_ticker c) ->
  same_market_data p p' ->
  analysis_of now p c = analysis_of now p' c.
Proof.
  intros Ht Hm. unfold analysis_of.
  now rewrite (evaluate_same_data now p p' c Ht Hm).
Qed.

Lemma scan_log_eq (now : timestamp) (p : Provider) :
  scan_log (run_scan now p)
  = map (fun c => log_line c (analysis_of now p c))
        (get_upcoming_earnings now p 7).
Proof.
  pose proof (run_scan_eq now p) as H. cbv zeta in H. rewrite H.
  destruct (get_upcoming_earnings now p 7); reflexivity.
Qed.

(** C7: an evaluator whose fetch raises or finds nothing returns its
    default result, of score 0; the analysis of the ticker completes all
    the same, its total being the sum of what the evaluators contribute;
    the analysis depends on no other ticker's data; and the scan logs a
    score, never an error, for every candidate. *)
Theorem evaluator_fault_isolation :
  (forall p t,
      recommendations p t = Raise
      \/ unavailable is_empty (analysis p t) = true ->
      calculate_earnings_esp p t = esp_default)
  /\ (forall now p t,
        unavailable (fun tbl => is_empty (it_rows tbl))
                    (insider_transactions p t) = true ->
        check_insider_activity now p t = insider_default)
  /\ (forall now p t,
        unavailable (fun tbl => is_empty (rt_rows tbl))
                    (recommendations p t) = true ->
        check_analyst_activity now p t = analyst_default)
  /\ (forall p t,
        no_history (history_1mo p t) = true ->
        check_price_momentum p t = momentum_default)
  /\ (forall p t,
        unavailable (fun tbl => is_empty (et_rows tbl))
                    (earnings_dates p t) = true ->
        check_historical_beat_rate p t = history_default)
  /\ (forall p t sector etf,
        loc sector sector_etfs = Some etf ->
        no_history (history_10d p etf) = true
        \/ no_history (history_10d p "SPY"%string) = true ->
        check_sector_momentum p t sector = sector_default)
  /\ esp_score esp_default = 0
  /\ ins_score insider_default = 0
  /\ ana_score analyst_default = 0
  /\ mom_score momentum_default = 0
  /\ hist_score history_default = 0
  /\ sec_score sector_default = 0
  /\ (forall now p c,
        let e := evaluate now p c in
        exists a,
          analyze_stock now p c = Ok a
          /\ total_score a
             = esp_score (ev_esp e) + ins_score (ev_insider e)
               + Z.max 0 (ana_score (ev_analyst e))
               + mom_score (ev_momentum e) + hist_score (ev_history e)
               + sec_score (ev_sector e))
  /\ (forall now p p' c,
        same_ticker_data p p' (c_ticker c) ->
        same_market_data p p' ->
        analyze_stock now p c = analyze_stock now p' c)
  /\ (forall now p,
        scan_log (run_scan now p)
        = map (fun c => log_line c (analysis_of now p c))
              (get_upcoming_earnings now p 7)).
Proof.
  split.
  { intros p t H. unfold calculate_earnings_esp.
    destruct H as [H | H]; [now rewrite H |].
    destruct (recommendations p t); [| reflexivity].
    cbn [bind]. unfold unavailable in H.
    destruct (analysis p t) as [[tbl |] |]; try reflexivity.
    cbn [bind try_except]. now rewrite H. }
  split.
  { intros now p t H. unfold check_insider_activity, unavailable in *.
    destruct (insider_transactions p t) as [[tbl |] |]; try reflexivity.
    cbn [bind try_except]. now rewrite H. }
  split.
  { intros now p t H. unfold check_analyst_activity, unavailable in *.
    destruct (recommendations p t) as [[tbl |] |]; try reflexivity.
    cbn [bind try_except]. now rewrite H. }
  split.
  { intros p t H. unfold check_price_momentum, no_history in *.
    destruct (history_1mo p t) as [[| b hist] |]; try reflexivity.
    discriminate. }
  split.
  { intros p t H. unfold check_historical_beat_rate, unavailable in *.
    destruct (earnings_dates p t) as [[tbl |] |]; try reflexivity.
    cbn [bind try_except]. now rewrite H. }
  split.
  { intros p t sector etf Hl H. unfold check_sector_momentum, no_history in *.
    rewrite Hl.
    destruct (history_10d p etf) as [etf_hist |]; [| reflexivity].
    cbn [bind].
    destruct (history_10d p "SPY"%string) as [spy_hist |]; [| reflexivity].
    cbn [bind try_except].
    destruct H as [H | H].
    - destruct etf_hist; [reflexivity | discriminate].
    - destruct spy_hist; [| discriminate].
      now rewrite andb_false_r. }
  repeat (split; [reflexivity |]).
  split.
  { intros now p c. cbv zeta. exists (analysis_of now p c).
    split; [apply analyze_stock_eq | reflexivity]. }
  split.
  { intros now p p' c Ht Hm. rewrite !analyze_stock_eq.
    now rewrite (analysis_of_same_data now p p' c Ht Hm). }
  intros now p. apply scan_log_eq.
Qed.

(** With every access raising, each evaluator falls back on its default;
    and MSFT's accesses raising leaves AAPL's analysis as it was. *)
Lemma evaluator_fault_isolation_witness :
  calculate_earnings_esp failing "AAPL"%string = esp_default
  /\ check_insider_activity day100 failing "AAPL"%string = insider_default
  /\ check_analyst_activity day100 failing "AAPL"%string = analyst_default
  /\ check_price_momentum failing "AAPL"%string = momentum_default
  /\ check_historical_beat_rate failing "AAPL"%string = history_default
  /\ check_sector_momentum failing "AAPL"%string "Technology"%string
     = sector_default
  /\ analyze_stock day100 rich_msft_down aapl = analyze_stock day100 rich aapl.
Proof.
  destruct evaluator_fault_isolation
    as [H1 [H2 [H3 [H4 [H5 [H6 [_ [_ [_ [_ [_ [_ [_ [H8 _]]]]]]]]]]]]]].
  split; [apply H1; left; reflexivity |].
  split; [apply H2; reflexivity |].
  split; [apply H3; reflexivity |].
  split; [apply H4; reflexivity |].
  split; [apply H5; reflexivity |].
  split; [apply (H6 _ _ _ "XLK"%string); [reflexivity | left; reflexivity] |].
  apply H8.
  - repeat split; reflexivity.
  - intros s _. reflexivity.
Defined.

(** *** Re-running the scan *)

Lemma fold_left_ext_in {A B} (f g : A -> B -> A) (l : list B) (a : A) :
  (forall acc x, In x l -> f acc x = g acc x) ->
  fold_left f l a = fold_left g l a.
Proof.
  revert a. induction l as [| x l IH]; intros a H; [reflexivity |].
  cbn [fold_left]. rewrite (H a x) by now left.
  apply IH. intros acc y Hy. apply H. now right.
Qed.

Lemma find_candidate_ticker (today cutoff : timestamp) (p : Provider)
  (t : ticker) (c : Candidate) :
  try_except (find_candidate today cutoff p t) None = Some c ->
  c_ticker c = t.
Proof.
  unfold find_candidate.
  destruct (calendar p t) as [[cal |] |]; cbn [bind try_except];
    try discriminate.
  destruct (negb _); [| discriminate].
  destruct (loc _ cal) as [[d |] |]; cbn [getitem bind try_except];
    try discriminate.
  destruct (andb _ _); [| discriminate].
  destruct (info p t) as [i |]; cbn [bind try_except]; [| discriminate].
  intros H. injection H as <-. reflexivity.
Qed.

Lemma upcoming_tickers_loop (today cutoff : timestamp) (p : Provider)
  (l : list ticker) (acc : list Candidate) (c : Candidate) :
  In c
     (fold_left
        (fun earnings_stocks t =>
           match try_except (find_candidate today cutoff p t) None with
           | Some c => earnings_stocks ++ [c]
           | None => earnings_stocks
           end)
        l acc) ->
  In c acc \/ In (c_ticker c) l.
Proof.
  revert acc. induction l as [| t l IH]; intros acc H; [now left |].
  cbn [fold_left] in H. apply IH in H.
  destruct H as [H | H]; [| right; now right].
  destruct (try_except (find_candidate today cutoff p t) None)
    as [c' |] eqn:E; [| now left].
  apply in_app_or in H. destruct H as [H | [<- | []]]; [now left |].
  right. left. symmetry. now apply (find_candidate_ticker _ _ _ _ _ E).
Qed.

(** Every candidate comes from the fixed universe. *)
Lemma upcoming_in_universe (now : timestamp) (p : Provider) (d : Z)
  (c : Candidate) :
  In c (get_upcoming_earnings now p d) -> In (c_ticker c) sample_tickers.
Proof.
  unfold get_upcoming_earnings. intros H.
  apply upcoming_tickers_loop in H. destruct H as [[] | H]. exact H.
Qed.

Lemma upcoming_same_data (now : timestamp) (p p' : Provider) (d : Z) :
  same_upstream_data p p' ->
  get_upcoming_earnings now p d = get_upcoming_earnings now p' d.
Proof.
  intros [Hu _]. unfold get_upcoming_earnings.
  apply fold_left_ext_in. intros acc t Ht.
  destruct (Hu t Ht) as [Hc [Hi _]].
  unfold find_candidate. now rewrite Hc, Hi.
Qed.

Lemma send_earnings_alert_same_data (now : timestamp) (p p' : Provider)
  (a : Analysis) :
  info p (a_ticker a) = info p' (a_ticker a) ->
  send_earnings_alert now p a = send_earnings_alert now p' a.
Proof.
  intros Hi. unfold send_earnings_alert, play_fields. now rewrite Hi.
Qed.

(** C8, with the clock held fixed: two runs that read the same clock and
    the same upstream data on everything a scan queries have the same
    outcome: the same log of scores, the same alerts in the same order,
    the same analyses with their totals and per-signal scores. *)
Theorem rerun_same_clock (now : timestamp) (p p' : Provider) :
  same_upstream_data p p' ->
  run_scan now p = run_scan now p'
  /\ alerted now p = alerted now p'
  /\ map al_ticker (alerts_sent (run_scan now p))
     = map al_ticker (alerts_sent (run_scan now p'))
  /\ map total_score (alerted now p) = map total_score (alerted now p')
  /\ map signals (alerted now p) = map signals (alerted now p').
Proof.
  intros H.
  assert (Hrun : run_scan now p = run_scan now p').
  { pose proof (run_scan_eq now p) as E. pose proof (run_scan_eq now p') as E'.
    cbv zeta in E, E'. rewrite E, E'.
    rewrite <- (upcoming_same_data now p p' 7 H).
    assert (Ha : map (analysis_of now p) (get_upcoming_earnings now p 7)
                 = map (analysis_of now p') (get_upcoming_earnings now p 7)).
    { apply map_ext_in. intros c Hc.
      apply upcoming_in_universe in Hc.
      destruct H as [Hu Hm]. destruct (Hu _ Hc) as [_ [_ Ht]].
      now apply analysis_of_same_data. }
    rewrite <- Ha.
    destruct (is_empty (get_upcoming_earnings now p 7)); [reflexivity |].
    f_equal.
    - apply map_ext_in. intros c Hc. f_equal.
      apply upcoming_in_universe in Hc.
      destruct H as [Hu Hm]. destruct (Hu _ Hc) as [_ [_ Ht]].
      now apply analysis_of_same_data.
    - apply map_ext_in. intros a Hin.
      apply send_earnings_alert_same_data.
      apply (Permutation_in a (sorted_desc_perm _)) in Hin.
      apply filter_In in Hin. destruct Hin as [Hin _].
      apply in_map_iff in Hin. destruct Hin as [c [<- Hc]].
      apply upcoming_in_universe in Hc.
      destruct H as [Hu Hm]. destruct (Hu _ Hc) as [_ [Hi _]].
      exact Hi. }
  assert (Hal : alerted now p = alerted now p')
    by (unfold alerted; now rewrite Hrun).
  rewrite Hrun, Hal. repeat split; reflexivity.
Qed.

(** Data on a ticker outside the universe does not change the outcome. *)
Lemma rerun_same_clock_witness :
  same_upstream_data rich rich_and_ibm
  /\ analysis rich "IBM"%string <> analysis rich_and_ibm "IBM"%string
  /\ run_scan day100 rich = run_scan day100 rich_and_ibm.
Proof.
  assert (H : same_upstream_data rich rich_and_ibm).
  { split.
    - intros t Ht. unfold sample_tickers in Ht.
      repeat (destruct Ht as [<- | Ht]; [repeat split; reflexivity |]).
      destruct Ht.
    - intros s _. reflexivity. }
  split; [exact H |].
  split; [vm_compute; discriminate |].
  exact (proj1 (rerun_same_clock day100 rich rich_and_ibm H)).
Defined.

(** C8 as stated fails: the same provider data scanned on day 100 and on
    day 101 gives different alert sets and scores.  The insider purchases
    of day 70.5 are within 30 days of the first run only, so AAPL scores 75
    and is alerted on day 100, and scores 50 with no alert on day 101. *)
Lemma rerun_later_differs :
  map al_ticker (alerts_sent (run_scan (days 100) rich)) = ["AAPL"%string]
  /\ map al_score (alerts_sent (run_scan (days 100) rich)) = [75]
  /\ scan_log (run_scan (days 100) rich) = [LogAlert "AAPL"%string 75]
  /\ alerts_sent (run_scan (days 101) rich) = []
  /\ scan_log (run_scan (days 101) rich) = [LogNoAlert "AAPL"%string 50]
  /\ run_scan (days 100) rich <> run_scan (days 101) rich.
Proof.
  assert (H0 : scan_log (run_scan (days 100) rich)
               = [LogAlert "AAPL"%string 75])
    by (vm_compute; reflexivity).
  assert (H1 : scan_log (run_scan (days 101) rich)
               = [LogNoAlert "AAPL"%string 50])
    by (vm_compute; reflexivity).
  split; [vm_compute; reflexivity |].
  split; [vm_compute; reflexivity |].
  split; [exact H0 |].
  split; [vm_compute; reflexivity |].
  split; [exact H1 |].
  intros E. rewrite E, H1 in H0. discriminate.
Qed.

(** On day 100, [rich] has one candidate, AAPL, whose total of 75 puts it
    in the alert set. *)
Lemma alert_iff_threshold_witness :
  In aapl (get_upcoming_earnings day100 rich 7)
  /\ total_score (analysis_of day100 rich aapl) = 75
  /\ In (analysis_of day100 rich aapl) (alerted day100 rich).
Proof.
  assert (Hin : In aapl (get_upcoming_earnings day100 rich 7))
    by (vm_compute; left; reflexivity).
  split; [exact Hin |].
  split; [vm_compute; reflexivity |].
  destruct (alert_iff_threshold day100 rich) as [_ [_ [_ [Hok Hiff]]]].
  apply Hiff. split.
  - exists aapl. split; [exact Hin | exact (Hok aapl Hin)].
  - vm_compute. discriminate.
Defined.

(** ** Further properties *)

(** *** The candidate finder *)

Lemma upcoming_loop_flat (today cutoff : timestamp) (p : Provider)
  (l : list ticker) (acc : list Candidate) :
  fold_left
    (fun earnings_stocks t =>
       match try_except (find_candidate today cutoff p t) None with
       | Some c => earnings_stocks ++ [c]
       | None => earnings_stocks
       end)
    l acc
  = acc ++ flat_map (candidates_of today cutoff p) l.
Proof.
  revert acc. induction l as [| t l IH]; intros acc; cbn [fold_left flat_map].
  - now rewrite app_nil_r.
  - rewrite IH. unfold candidates_of.
    destruct (try_except (find_candidate today cutoff p t) None).
    + now rewrite <- app_assoc.
    + reflexivity.
Qed.

Lemma get_upcoming_earnings_flat (now : timestamp) (p : Provider) (d : Z) :
  get_upcoming_earnings now p d
  = flat_map (candidates_of now (now + days d) p) sample_tickers.
Proof. unfold get_upcoming_earnings. now rewrite upcoming_loop_flat. Qed.




Lemma subseq_refl {A} (l : list A) : subseq l l.
Proof. induction l; [apply subseq_nil | now apply subseq_take]. Qed.

Lemma subseq_length {A} (l1 l2 : list A) :
  subseq l1 l2 -> (List.length l1 <= List.length l2)%nat.
Proof. induction 1; cbn; lia. Qed.

Lemma subseq_In {A} (l1 l2 : list A) (x : A) :
  subseq l1 l2 -> In x l1 -> In x l2.
Proof.
  induction 1; cbn; auto.
  intros [-> | H']; auto.
Qed.

Lemma subseq_NoDup {A} (l1 l2 : list A) :
  subseq l1 l2 -> NoDup l2 -> NoDup l1.
Proof.
  induction 1 as [| x l1 l2 H IH | x l1 l2 H IH]; intros Hn.
  - constructor.
  - inversion Hn; subst. now apply IH.
  - inversion Hn; subst. constructor; [| now apply IH].
    intros Hin. apply H2. now apply (subseq_In l1 l2).
Qed.

Lemma sample_tickers_NoDup : NoDup sample_tickers.
Proof.
  assert (E : nodup string_dec sample_tickers = sample_tickers)
    by (vm_compute; reflexivity).
  rewrite <- E. apply NoDup_nodup.
Qed.

Lemma upcoming_tickers_subseq (today cutoff : timestamp) (p : Provider)
  (l : list ticker) :
  subseq (map c_ticker (flat_map (candidates_of today cutoff p) l)) l.
Proof.
  induction l as [| t l IH]; cbn [flat_map map]; [constructor |].
  rewrite map_app. unfold candidates_of at 1.
  destruct (try_except (find_candidate today cutoff p t) None) as [c |] eqn:E.
  - cbn [map app]. rewrite (find_candidate_ticker _ _ _ _ _ E).
    now constructor.
  - cbn [map app]. now constructor.
Qed.

(** The candidates come in the order of the ticker universe, each ticker
    at most once, so there are never more than 42 of them. *)
Theorem upcoming_in_universe_order (now : timestamp) (p : Provider)
  (d : Z) :
  let tickers := map c_ticker (get_upcoming_earnings now p d) in
  subseq tickers sample_tickers
  /\ NoDup tickers
  /\ (List.length (get_upcoming_earnings now p d) <= 42)%nat.
Proof.
  cbv zeta. rewrite get_upcoming_earnings_flat.
  pose proof (upcoming_tickers_subseq now (now + days d) p sample_tickers)
    as H.
  split; [exact H |].
  split; [exact (subseq_NoDup _ _ H sample_tickers_NoDup) |].
  apply subseq_length in H. rewrite length_map in H. exact H.
Qed.

Lemma filter_flat_map {A B} (f : B -> bool) (g : A -> list B) (l : list A) :
  filter f (flat_map g l) = flat_map (fun x => filter f (g x)) l.
Proof.
  induction l as [| x l IH]; cbn [flat_map]; [reflexivity |].
  now rewrite filter_app, IH.
Qed.

Lemma flat_map_ext_in {A B} (f g : A -> list B) (l : list A) :
  (forall x, In x l -> f x = g x) -> flat_map f l = flat_map g l.
Proof.
  induction l as [| x l IH]; intros H; cbn [flat_map]; [reflexivity |].
  rewrite (H x) by now left.
  rewrite IH; [reflexivity |]. intros y Hy. apply H. now right.
Qed.

(** A ticker whose calendar or profile access raises is skipped, and the
    candidates found for the other tickers are unchanged. *)
Theorem upcoming_skips_failing_ticker (now : timestamp) (p p' : Provider)
  (d : Z) (t0 : ticker) :
  (forall t, t <> t0 ->
             calendar p' t = calendar p t /\ info p' t = info p t) ->
  calendar p' t0 = Raise \/ info p' t0 = Raise ->
  get_upcoming_earnings now p' d
  = filter (fun c => negb (String.eqb (c_ticker c) t0))
           (get_upcoming_earnings now p d).
Proof.
  intros Hsame Hfail. rewrite !get_upcoming_earnings_flat, filter_flat_map.
  apply flat_map_ext_in. intros t _.
  destruct (String.eqb_spec t t0) as [-> | Hne].
  - replace (candidates_of now (now + days d) p' t0) with (@nil Candidate).
    + unfold candidates_of.
      destruct (try_except (find_candidate now (now + days d) p t0) None)
        as [c |] eqn:E; [| reflexivity].
      cbn [filter]. rewrite (find_candidate_ticker _ _ _ _ _ E).
      now rewrite String.eqb_refl.
    + unfold candidates_of, find_candidate.
      destruct Hfail as [H | H]; rewrite H; [reflexivity |].
      destruct (calendar p' t0) as [[cal |] |]; cbn [bind try_except];
        try reflexivity.
      destruct (negb _); [| reflexivity].
      destruct (loc _ cal) as [[e |] |]; cbn [getitem bind try_except];
        try reflexivity.
      destruct (andb _ _); reflexivity.
  - destruct (Hsame t Hne) as [Hc Hi].
    unfold candidates_of at 1. unfold find_candidate. rewrite Hc, Hi.
    fold (find_candidate now (now + days d) p t).
    fold (candidates_of now (now + days d) p t).
    unfold candidates_of.
    destruct (try_except (find_candidate now (now + days d) p t) None)
      as [c |] eqn:E; [| reflexivity].
    cbn [filter]. rewrite (find_candidate_ticker _ _ _ _ _ E).
    apply String.eqb_neq in Hne. now rewrite Hne.
Qed.

(** With MSFT's accesses raising, AAPL is still found. *)
Lemma upcoming_skips_failing_ticker_witness :
  get_upcoming_earnings day100 rich_msft_down 7 = [aapl].
Proof.
  rewrite (upcoming_skips_failing_ticker day100 rich rich_msft_down 7
             "MSFT"%string).
  - vm_compute. reflexivity.
  - intros t Hne. apply String.eqb_neq in Hne.
    cbn [calendar info rich_msft_down]. now rewrite Hne.
  - left. reflexivity.
Defined.



(** *** The orchestrator *)

Lemma insert_desc_forall (P : Analysis -> Prop) (a : Analysis)
  (l : list Analysis) :
  P a -> Forall P l -> Forall P (insert_desc a l).
Proof.
  intros Ha Hl. induction Hl as [| b l Hb Hl IH]; cbn.
  - now constructor.
  - destruct (total_score b <=? total_score a); repeat constructor; auto.
Qed.

Lemma insert_desc_sorted (a : Analysis) (l : list Analysis) :
  StronglySorted (fun x y => total_score y <= total_score x) l ->
  StronglySorted (fun x y => total_score y <= total_score x)
                 (insert_desc a l).
Proof.
  induction 1 as [| b l Hs IH Hb]; cbn.
  - repeat constructor.
  - destruct (total_score b <=? total_score a) eqn:E.
    + apply Z.leb_le in E. constructor; [now constructor |].
      constructor; [exact E |].
      eapply Forall_impl; [| exact Hb]. cbn. intros x Hx. lia.
    + apply Z.leb_gt in E. constructor; [exact IH |].
      apply insert_desc_forall; [lia | exact Hb].
Qed.

Lemma sorted_desc_sorted (l : list Analysis) :
  StronglySorted (fun x y => total_score y <= total_score x) (sorted_desc l).
Proof.
  induction l as [| a l IH]; cbn; [constructor |].
  now apply insert_desc_sorted.
Qed.

Lemma StronglySorted_map {A B} (R : B -> B -> Prop) (f : A -> B)
  (l : list A) :
  StronglySorted (fun x y => R (f x) (f y)) l -> StronglySorted R (map f l).
Proof.
  induction 1 as [| a l Hs IH Ha]; cbn; constructor; auto.
  apply Forall_map. exact Ha.
Qed.

Lemma al_score_send (now : timestamp) (p : Provider) (a : Analysis) :
  al_score (send_earnings_alert now p a) = total_score a.
Proof.
  unfold send_earnings_alert.
  now destruct (confidence_of (total_score a)).
Qed.

(** The alerts go out in non-increasing order of total score. *)
Theorem alerts_sorted_descending (now : timestamp) (p : Provider) :
  descending (map al_score (alerts_sent (run_scan now p))).
Proof.
  unfold descending. rewrite alerts_sent_eq, map_map.
  rewrite (map_ext _ total_score) by (intros a; apply al_score_send).
  rewrite alerted_eq.
  apply StronglySorted_map. apply sorted_desc_sorted.
Qed.

Lemma insert_desc_filter (k : Z) (a : Analysis) (l : list Analysis) :
  filter (fun x => total_score x =? k) (insert_desc a l)
  = filter (fun x => total_score x =? k) (a :: l).
Proof.
  induction l as [| b l IH]; [reflexivity |].
  cbn [insert_desc].
  destruct (total_score b <=? total_score a) eqn:E; [reflexivity |].
  apply Z.leb_gt in E.
  cbn [filter] in *. rewrite IH.
  destruct (total_score a =? k) eqn:Ea, (total_score b =? k) eqn:Eb;
    try reflexivity.
  apply Z.eqb_eq in Ea, Eb. lia.
Qed.

(** The sort is stable: analyses of equal total score are alerted in the
    order in which the scan found them. *)
Theorem alerts_keep_discovery_order_on_ties (now : timestamp)
  (p : Provider) (k : Z) :
  filter (fun a => total_score a =? k) (alerted now p)
  = filter (fun a => total_score a =? k)
           (filter qualifies
                   (map (analysis_of now p)
                        (get_upcoming_earnings now p 7))).
Proof.
  rewrite alerted_eq.
  induction (filter qualifies _) as [| a l IH]; [reflexivity |].
  cbn [sorted_desc fold_right]. fold (sorted_desc l).
  rewrite insert_desc_filter. cbn [filter]. now rewrite IH.
Qed.

Lemma alerted_qualify (now : timestamp) (p : Provider) (a : Analysis) :
  In a (alerted now p) -> 70 <= total_score a.
Proof.
  rewrite alerted_eq. intros H.
  apply (Permutation_in a (sorted_desc_perm _)) in H.
  apply filter_In in H. destruct H as [_ H].
  apply Z.leb_le. exact H.
Qed.

(** Every alert a scan sends carries a score of at least 70, so its
    confidence is HIGH or MODERATE: the LOW tier of the notifier, and its
    blue colour, are never used by a scan. *)
Theorem alerts_never_low_confidence (now : timestamp) (p : Provider) :
  Forall (fun al =>
            70 <= al_score al
            /\ al_confidence al <> LOW_CONFIDENCE
            /\ (al_confidence al = HIGH_CONFIDENCE <-> 80 <= al_score al)
            /\ al_color al <> 3447003)
         (alerts_sent (run_scan now p)).
Proof.
  rewrite alerts_sent_eq. apply Forall_forall. intros al Hal.
  apply in_map_iff in Hal. destruct Hal as [a [<- Ha]].
  apply alerted_qualify in Ha.
  unfold send_earnings_alert, confidence_of.
  destruct (80 <=? total_score a) eqn:E80; cbn.
  - apply Z.leb_le in E80. repeat split; auto; try discriminate.
  - apply Z.leb_gt in E80.
    replace (70 <=? total_score a) with true
      by (symmetry; now apply Z.leb_le).
    cbn. repeat split; auto; try discriminate; lia.
Qed.

Lemma filter_subseq {A} (f : A -> bool) (l : list A) : subseq (filter f l) l.
Proof.
  induction l as [| x l IH]; cbn; [constructor |].
  destruct (f x); now constructor.
Qed.

Lemma alert_lines_count (now : timestamp) (p : Provider)
  (cs : list Candidate) :
  List.length
    (filter is_alert_line
            (map (fun c => log_line c (analysis_of now p c)) cs))
  = List.length (filter qualifies (map (analysis_of now p) cs)).
Proof.
  induction cs as [| c cs IH]; [reflexivity |].
  cbn [map filter]. unfold log_line at 1.
  destruct (qualifies (analysis_of now p c)); cbn; now rewrite IH.
Qed.

(** The parts of a scan's outcome fit together: one log line per
    candidate; as many alerts as alert lines in the log, and never more
    than 42; the returned list holds the alerted analyses in the order in
    which they were found; and nothing is returned exactly when no
    candidate was found. *)
Theorem scan_outcome_consistent (now : timestamp) (p : Provider) :
  let upcoming := get_upcoming_earnings now p 7 in
  let out := run_scan now p in
  List.length (scan_log out) = List.length upcoming
  /\ List.length (alerts_sent out)
     = List.length (filter is_alert_line (scan_log out))
  /\ (List.length (alerts_sent out) <= 42)%nat
  /\ match returned out with
     | Some high_priority =>
         upcoming <> []
         /\ Permutation (alerted now p) high_priority
         /\ subseq high_priority (map (analysis_of now p) upcoming)
     | None => upcoming = [] /\ alerts_sent out = [] /\ scan_log out = []
     end.
Proof.
  cbv zeta.
  pose proof (upcoming_in_universe_order now p 7) as [_ [_ Hlen]].
  assert (Hal : List.length (alerts_sent (run_scan now p))
                = List.length
                    (filter qualifies
                            (map (analysis_of now p)
                                 (get_upcoming_earnings now p 7)))).
  { rewrite alerts_sent_eq, length_map, alerted_eq.
    apply Permutation_length, sorted_desc_perm. }
  split; [rewrite scan_log_eq; apply length_map |].
  split; [rewrite Hal, scan_log_eq; symmetry; apply alert_lines_count |].
  split.
  { rewrite Hal.
    pose proof (subseq_length _ _
                  (filter_subseq qualifies
                     (map (analysis_of now p)
                          (get_upcoming_earnings now p 7)))) as H.
    rewrite length_map in H. lia. }
  pose proof (alerted_eq now p) as Ha.
  pose proof (run_scan_eq now p) as E. cbv zeta in E. rewrite E.
  destruct (get_upcoming_earnings now p 7) as [| c cs] eqn:Eu.
  - cbn. auto.
  - cbn [is_empty returned]. split; [discriminate |].
    split; [rewrite Ha; apply sorted_desc_perm | apply filter_subseq].
Qed.

(** *** The notifier *)

Lemma play_fields_cases (p : Provider) (t : ticker) (score : Z) :
  play_fields p t score = []
  \/ exists price play,
       fltb (of_int 0) price = true
       /\ suggested_play score price = Ok play
       /\ play_fields p t score = [FPlay play].
Proof.
  unfold play_fields.
  destruct (info p t) as [i |]; cbn [bind try_except]; [| now left].
  destruct (fltb (of_int 0) (get (currentPrice i) (of_int 0))) eqn:E;
    [| now left].
  destruct (suggested_play score (get (currentPrice i) (of_int 0)))
    as [play |] eqn:Es; [| now left].
  right. exists (get (currentPrice i) (of_int 0)), play. auto.
Qed.

(** An alert shows the first six signals at most, then at most one
    suggested play, then the disclaimer: never more than eight fields. *)
Theorem alert_fields_layout (now : timestamp) (p : Provider) (a : Analysis) :
  exists play,
    al_fields (send_earnings_alert now p a)
    = signal_fields a ++ play ++ [FDisclaimer]
    /\ List.length (signal_fields a) = Nat.min 6 (List.length (signals a))
    /\ forallb is_signal_field (signal_fields a) = true
    /\ (play = []
        \/ exists price computed,
             fltb (of_int 0) price = true
             /\ suggested_play (total_score a) price = Ok computed
             /\ play = [FPlay computed])
    /\ (List.length (al_fields (send_earnings_alert now p a)) <= 8)%nat.
Proof.
  exists (play_fields p (a_ticker a) (total_score a)).
  pose proof (al_fields_eq now p a) as Hf.
  assert (Hl : List.length (signal_fields a)
               = Nat.min 6 (List.length (signals a))).
  { unfold signal_fields. now rewrite length_map, length_firstn. }
  split; [exact Hf |].
  split; [exact Hl |].
  split.
  { unfold signal_fields. apply forallb_forall. intros f Hin.
    apply in_map_iff in Hin. destruct Hin as [[[n s] d] [<- _]].
    reflexivity. }
  split; [apply play_fields_cases |].
  rewrite Hf, !length_app, Hl.
  pose proof (Nat.le_min_l 6 (List.length (signals a))) as Hm.
  destruct (play_fields_cases p (a_ticker a) (total_score a))
    as [-> | [price [computed [_ [_ ->]]]]]; cbn [List.length]; lia.
Qed.

(** Without a positive current price (the profile access raises, the
    price is absent, or it is zero or negative) the alert has no suggested
    play: the signal fields are followed by the disclaimer alone. *)
Theorem no_play_without_price (now : timestamp) (p : Provider)
  (a : Analysis) :
  info p (a_ticker a) = Raise
  \/ (exists i, info p (a_ticker a) = Ok i
                /\ fltb (of_int 0) (get (currentPrice i) (of_int 0))
                   = false) ->
  al_fields (send_earnings_alert now p a) = signal_fields a ++ [FDisclaimer].
Proof.
  intros H. rewrite al_fields_eq.
  replace (play_fields p (a_ticker a) (total_score a)) with (@nil Field);
    [reflexivity |].
  unfold play_fields. destruct H as [-> | [i [-> Hp]]]; [reflexivity |].
  cbn [bind]. now rewrite Hp.
Qed.

Lemma no_play_without_price_witness :
  al_fields (send_earnings_alert day100 silent
               (analysis_of day100 silent aapl))
  = [FDisclaimer]
  /\ al_fields (send_earnings_alert day100 failing
                  (analysis_of day100 failing aapl))
     = [FDisclaimer].
Proof.
  split.
  - rewrite (no_play_without_price day100 silent).
    + reflexivity.
    + right. exists blank_info. split; reflexivity.
  - rewrite (no_play_without_price day100 failing).
    + reflexivity.
    + left. reflexivity.
Defined.

(** *** The estimate-revision evaluator *)

(** The evaluator has data exactly when the recommendations access does
    not raise and the analysis table yields a non-zero consensus: the
    ['current'] of the ['Eps Revisions'] cell, else of ['Eps Trend'].
    A consensus of exactly zero counts as no data. *)
Theorem esp_requires_mean_estimate (p : Provider) (t : ticker) :
  let r := calculate_earnings_esp p t in
  (has_data r = true
   <-> exists recs tbl q,
         recommendations p t = Ok recs
         /\ analysis p t = Ok (Some tbl)
         /\ consensus tbl = Some q
         /\ ~ (q == 0)%Q
         /\ mean_estimate r = Some q)
  /\ (has_data r = false -> r = esp_default).
Proof.
  cbv zeta. unfold calculate_earnings_esp.
  destruct (recommendations p t) as [recs |]; cbn [bind try_except].
  2:{ split; [| reflexivity]. split; [discriminate |].
      intros [? [? [? [H _]]]]. discriminate. }
  destruct (analysis p t) as [[tbl |] |]; cbn [bind try_except].
  2,3: split; [| reflexivity]; split; [discriminate |];
       intros [? [? [? [_ [H _]]]]]; discriminate.
  rewrite mean_estimate_consensus.
  destruct tbl as [| row tbl].
  { cbn. split; [| reflexivity]. split; [discriminate |].
    intros [? [? [? [_ [H [H' _]]]]]]. injection H as <-.
    discriminate. }
  cbn [is_empty negb].
  destruct (consensus (row :: tbl)) as [q |] eqn:Ec; cbn [truthy].
  2:{ split; [| reflexivity]. split; [discriminate |].
      intros [? [? [? [_ [H [H' _]]]]]]. injection H as <-.
      congruence. }
  destruct (Qeq_bool q 0) eqn:Eq; cbn [negb].
  - split; [| reflexivity]. split; [discriminate |].
    intros [? [? [q' [_ [H [H' [Hn _]]]]]]]. injection H as <-.
    rewrite Ec in H'. injection H' as <-.
    apply Qeq_bool_iff in Eq. contradiction.
  - split; [| discriminate]. split; [| reflexivity].
    intros _. exists recs, (row :: tbl), q. repeat split; auto.
    intros H. apply Qeq_bool_iff in H. congruence.
Qed.

Lemma revision_score_values (tbl : AnalysisTable) :
  (forall d, loc "Eps Revisions"%string tbl = Some (CDict d) ->
             0 <= get (upLast7days d) 0 /\ 0 <= get (downLast7days d) 0) ->
  exists k, 0 <= k <= 6 /\ revision_score tbl = 5 * k.
Proof.
  intros H. unfold revision_score.
  destruct (loc _ tbl) as [[d |] |]; try (exists 0; lia).
  destruct (H d eq_refl) as [Hu Hd].
  destruct (_ <? _); [| exists 0; lia].
  exists (Z.min 6 (get (upLast7days d) 0)). lia.
Qed.

(** With revision counts that are not negative, the ESP score is a
    multiple of 5 from 0 to 30; when the evaluator has data, the strength
    label is Strong from 25, Moderate at 15 and 20, and Weak below. *)
Theorem esp_score_values (p : Provider) (t : ticker) :
  revisions_nonneg p t ->
  let r := calculate_earnings_esp p t in
  (exists k, 0 <= k <= 6 /\ esp_score r = 5 * k)
  /\ (has_data r = true ->
      signal_strength r
      = Some (if 25 <=? esp_score r then Strong
              else if 15 <=? esp_score r then Moderate
              else Weak)).
Proof.
  intros Hnn. cbv zeta. unfold calculate_earnings_esp.
  destruct (recommendations p t) as [recs |]; cbn [bind try_except];
    [| split; [exists 0; cbn; lia | discriminate]].
  destruct (analysis p t) as [[tbl |] |] eqn:Ea; cbn [bind try_except];
    try (split; [exists 0; cbn; lia | discriminate]).
  destruct (negb _); [| split; [exists 0; cbn; lia | discriminate]].
  destruct (truthy _); [| split; [exists 0; cbn; lia | discriminate]].
  cbn [esp_score has_data signal_strength].
  destruct (revision_score_values tbl) as [k [Hk Es]].
  { intros d Hl. exact (Hnn tbl d Ea Hl). }
  split; [exists k; auto |].
  intros _. f_equal. rewrite Es. unfold strength_of.
  destruct (20 <? 5 * k) eqn:E1.
  - apply Z.ltb_lt in E1.
    replace (25 <=? 5 * k) with true by (symmetry; apply Z.leb_le; lia).
    reflexivity.
  - apply Z.ltb_ge in E1.
    replace (25 <=? 5 * k) with false by (symmetry; apply Z.leb_gt; lia).
    destruct (10 <? 5 * k) eqn:E2.
    + apply Z.ltb_lt in E2.
      replace (15 <=? 5 * k) with true by (symmetry; apply Z.leb_le; lia).
      reflexivity.
    + apply Z.ltb_ge in E2.
      replace (15 <=? 5 * k) with false by (symmetry; apply Z.leb_gt; lia).
      reflexivity.
Qed.

Lemma esp_score_values_witness :
  revisions_nonneg rich "AAPL"%string
  /\ esp_score (calculate_earnings_esp rich "AAPL"%string) = 5 * 6
  /\ signal_strength (calculate_earnings_esp rich "AAPL"%string)
     = Some Strong.
Proof.
  assert (Hnn : revisions_nonneg rich "AAPL"%string).
  { intros tbl d Ha Hl. vm_compute in Ha. injection Ha as <-.
    vm_compute in Hl. injection Hl as <-. cbn. lia. }
  split; [exact Hnn |].
  destruct (esp_score_values rich "AAPL"%string Hnn) as [_ Hs].
  split; [vm_compute; reflexivity |].
  rewrite Hs; vm_compute; reflexivity.
Defined.

(** *** The analyst evaluator *)

Lemma analyst_score_signal_values (u d : Z) :
  0 <= u -> 0 <= d ->
  let s := fst (analyst_score_signal u d) in
  In s [-10; 0; 7; 14; 20]
  /\ (s = -10 <-> u < d)
  /\ (s = 0 <-> u = d)
  /\ (0 < s <-> d < u).
Proof.
  intros Hu Hd. cbv zeta. unfold analyst_score_signal.
  destruct (d <? u) eqn:E1; cbn [fst].
  - apply Z.ltb_lt in E1.
    assert (Hv : u = 1 \/ u = 2 \/ 3 <= u) by lia.
    destruct Hv as [-> | [-> | Hv]].
    + cbn. intuition lia.
    + cbn. intuition lia.
    + rewrite Z.min_l by lia. cbn. intuition lia.
  - apply Z.ltb_ge in E1.
    destruct (u <? d) eqn:E2; cbn [fst].
    + apply Z.ltb_lt in E2. cbn. intuition lia.
    + apply Z.ltb_ge in E2. cbn. intuition lia.
Qed.

(** The analyst score is one of -10, 0, 7, 14 and 20.  When the evaluator
    reports activity, the score is -10 exactly when downgrades outnumber
    upgrades, 0 exactly on a tie, and positive exactly when upgrades
    outnumber downgrades; otherwise the result is the default. *)
Theorem analyst_score_values (now : timestamp) (p : Provider) (t : ticker) :
  let r := check_analyst_activity now p t in
  In (ana_score r) [-10; 0; 7; 14; 20]
  /\ match upgrades_downgrades r with
     | Some (u, d) =>
         ana_has_activity r = true
         /\ 0 <= u /\ 0 <= d
         /\ (ana_score r = -10 <-> u < d)
         /\ (ana_score r = 0 <-> u = d)
         /\ (0 < ana_score r <-> d < u)
     | None => r = analyst_default
     end.
Proof.
  cbv zeta. unfold check_analyst_activity.
  destruct (recommendations p t) as [[tbl |] |];
    cbn [bind try_except]; try (cbn; auto 10).
  destruct (negb _); [| cbn; auto 10].
  destruct (0 <? len _); [| cbn; auto 10].
  destruct (rt_has_to_grade tbl); [| cbn; auto 10].
  match goal with
  | |- context [analyst_score_signal ?u ?d] =>
      pose proof (analyst_score_signal_values u d
                    (len_nonneg _) (len_nonneg _)) as H;
      destruct (analyst_score_signal u d) as [score signal]
  end.
  cbv zeta in H. cbn [fst] in H. cbn [try_except ana_score
    upgrades_downgrades ana_has_activity].
  destruct H as [Hv [H1 [H2 H3]]].
  repeat split; auto using len_nonneg; try apply H1; try apply H2;
    try apply H3.
Qed.

Lemma no_recent_recommendations (recent_date : timestamp)
  (rows : list RecRow) :
  Forall (fun r => rr_date r <= recent_date) rows ->
  filter (fun r => recent_date <? rr_date r) rows = [].
Proof.
  induction 1 as [| r rows Hr H IH]; [reflexivity |].
  cbn [filter]. apply Z.ltb_ge in Hr. now rewrite Hr.
Qed.

(** Recommendations without a ['To Grade'] column, or none of which is
    younger than 30 days, give the default result. *)
Theorem analyst_default_cases (now : timestamp) (p : Provider) (t : ticker)
  (tbl : RecTable) :
  recommendations p t = Ok (Some tbl) ->
  rt_has_to_grade tbl = false
  \/ Forall (fun r => rr_date r <= now - days 30) (rt_rows tbl) ->
  check_analyst_activity now p t = analyst_default.
Proof.
  intros Hf H. unfold check_analyst_activity. rewrite Hf.
  cbn [bind try_except].
  destruct (negb _); [| reflexivity].
  destruct (0 <? len _) eqn:E; [| reflexivity].
  destruct H as [-> | H]; [reflexivity |].
  rewrite (no_recent_recommendations _ _ H) in E. discriminate.
Qed.

(** The upgrades of [hot] are on day 95 to 97: they count on day 100 and
    are too old on day 130. *)
Lemma analyst_default_cases_witness :
  ana_score (check_analyst_activity day100 hot "NVDA"%string) = 20
  /\ check_analyst_activity (days 130) hot "NVDA"%string = analyst_default.
Proof.
  split; [vm_compute; reflexivity |].
  apply (analyst_default_cases (days 130) hot "NVDA"%string nvda_upgrades).
  - reflexivity.
  - right. repeat constructor; vm_compute; discriminate.
Defined.

(** *** The insider evaluator *)




(** *** The momentum evaluator *)

Lemma momentum_rules_values (x y : npfloat) :
  let '(score, sigs) := momentum_rules x y in
  In score [0; 10; 15; 20; 25]
  /\ (List.length sigs <= 2)%nat
  /\ (List.length sigs = 2%nat <-> 20 <= score)
  /\ (sigs = [] <-> score = 0).
Proof.
  unfold momentum_rules.
  destruct (np_gt x 5), (np_gt x 2), (np_gt y (-3)); cbn;
    repeat split; intros; try lia; try discriminate; auto 10.
Qed.

(** The momentum score is one of 0, 10, 15, 20 and 25; the evaluator
    reports momentum exactly when the score is positive; it lists at most
    two sub-signals, two exactly from a score of 20, none exactly at 0. *)
Theorem momentum_score_values (p : Provider) (t : ticker) :
  let m := check_price_momentum p t in
  In (mom_score m) [0; 10; 15; 20; 25]
  /\ (mom_has_momentum m = true <-> 0 < mom_score m)
  /\ match mom_signals m with
     | Some sigs =>
         (List.length sigs <= 2)%nat
         /\ (List.length sigs = 2%nat <-> 20 <= mom_score m)
         /\ (sigs = [] <-> mom_score m = 0)
     | None => m = momentum_default
     end.
Proof.
  cbv zeta. unfold check_price_momentum.
  assert (D : In (mom_score momentum_default) [0; 10; 15; 20; 25]
              /\ (mom_has_momentum momentum_default = true
                  <-> 0 < mom_score momentum_default)
              /\ momentum_default = momentum_default).
  { cbn. repeat split; auto; try discriminate; lia. }
  destruct (history_1mo p t) as [hist |]; cbn [bind try_except];
    [| exact D].
  destruct (5 <? len hist); [| exact D].
  pose proof (momentum_rules_values (pct_change_of hist)
                                    (pct_from_high_of hist)) as H.
  destruct (momentum_rules _ _) as [score sigs].
  cbn [mom_score mom_has_momentum mom_signals].
  destruct H as [Hv H]. split; [exact Hv |]. split; [| exact H].
  split; [apply Z.ltb_lt | apply Z.ltb_lt].
Qed.

(** *** Rational facts *)

Lemma positive_nonzero (b : Q) : (0 < b)%Q -> ~ (b == 0)%Q.
Proof. intros Hb H. rewrite H in Hb. exact (Qlt_irrefl 0 Hb). Qed.

(** *** The beat rate in integers *)

Lemma rate_le_iff (n b t : Z) :
  0 < t ->
  ((n # 100) <= inject_Z b / inject_Z t)%Q <-> n * t <= 100 * b.
Proof.
  intros Ht.
  assert (Hp : (0 < inject_Z t)%Q) by (unfold Qlt; cbn; lia).
  assert (Hq : (inject_Z b / inject_Z t * inject_Z t == inject_Z b)%Q)
    by (field; now apply positive_nonzero).
  set (q := (inject_Z b / inject_Z t)%Q) in *.
  assert (E : ((n # 100) * inject_Z t <= inject_Z b)%Q
              <-> n * t <= 100 * b).
  { unfold Qle, Qmult, inject_Z; cbn [Qnum Qden].
    change (Z.pos (100 * 1)) with 100. lia. }
  rewrite <- E. split; intros H; nra.
Qed.

(** On a table with the surprise column, the beat-rate score is 20 when
    at least three quarters of the first four rows (or of all rows, when
    there are fewer) have a positive surprise, 10 when at least half of
    them have, and 0 otherwise. *)
Theorem beat_rate_rule_integers (p : Provider) (t : ticker)
  (tbl : EarningsTable) :
  earnings_dates p t = Ok (Some tbl) ->
  et_has_surprise tbl = true ->
  et_rows tbl <> [] ->
  let recent := firstn 4 (et_rows tbl) in
  let beats := len (filter is_beat recent) in
  let total := len recent in
  0 < total <= 4
  /\ 0 <= beats <= total
  /\ hist_score (check_historical_beat_rate p t)
     = if 3 * total <=? 4 * beats then 20
       else if total <=? 2 * beats then 10
       else 0.
Proof.
  intros Hf Hc Hne. cbv zeta.
  destruct (check_historical_beat_rate_eq p t tbl Hf Hc Hne) as [_ [_ Hs]].
  rewrite Hs.
  set (recent := firstn 4 (et_rows tbl)).
  assert (Ht : 0 < len recent <= 4).
  { unfold len, recent. rewrite length_firstn.
    destruct (et_rows tbl); [congruence | cbn [List.length]; lia]. }
  assert (Hb : 0 <= len (filter is_beat recent) <= len recent).
  { unfold len. pose proof (filter_length_le is_beat recent). lia. }
  split; [exact Ht |]. split; [exact Hb |].
  unfold beat_rate_score.
  destruct (Qle_bool (75 # 100) _) eqn:E1.
  - apply Qle_bool_iff, rate_le_iff in E1; [| lia].
    replace (3 * len recent <=? 4 * len (filter is_beat recent)) with true;
      [reflexivity |].
    symmetry. apply Z.leb_le. lia.
  - assert (N1 : ~ 75 * len recent <= 100 * len (filter is_beat recent)).
    { intros H. apply (rate_le_iff 75) in H; [| lia].
      apply Qle_bool_iff in H. congruence. }
    replace (3 * len recent <=? 4 * len (filter is_beat recent)) with false
      by (symmetry; apply Z.leb_gt; lia).
    destruct (Qle_bool (50 # 100) _) eqn:E2.
    + apply Qle_bool_iff, rate_le_iff in E2; [| lia].
      replace (len recent <=? 2 * len (filter is_beat recent)) with true;
        [reflexivity |].
      symmetry. apply Z.leb_le. lia.
    + assert (N2 : ~ 50 * len recent <= 100 * len (filter is_beat recent)).
      { intros H. apply (rate_le_iff 50) in H; [| lia].
        apply Qle_bool_iff in H. congruence. }
      replace (len recent <=? 2 * len (filter is_beat recent)) with false
        by (symmetry; apply Z.leb_gt; lia).
      reflexivity.
Qed.

(** AAPL in [rich]: three beats in the first four rows. *)
Lemma beat_rate_rule_integers_witness :
  hist_score (check_historical_beat_rate rich "AAPL"%string) = 20.
Proof.
  destruct (beat_rate_rule_integers rich "AAPL"%string aapl_earnings)
    as [_ [_ Hs]]; [reflexivity | reflexivity | discriminate |].
  rewrite Hs. vm_compute. reflexivity.
Defined.

(** *** The signal list of an analysis *)

Lemma subseq_app {A} (l1 l2 k1 k2 : list A) :
  subseq l1 l2 -> subseq k1 k2 -> subseq (l1 ++ k1) (l2 ++ k2).
Proof.
  induction 1; intros Hk; cbn [app].
  - exact Hk.
  - apply subseq_skip. auto.
  - apply subseq_take. auto.
Qed.

Lemma subseq_nil_l {A} (l : list A) : subseq [] l.
Proof. induction l; [apply subseq_nil | now apply subseq_skip]. Qed.

Lemma entry_of_names (name : SignalName) (score : Z) (d : option Detail) :
  subseq (map signal_name (entry_of name score d)) [name].
Proof.
  destruct d; cbn; [apply subseq_refl | apply subseq_nil_l].
Qed.

Lemma guarded_entry_names (b : bool) (name : SignalName) (score : Z)
  (d : option Detail) :
  subseq (map signal_name (if b then entry_of name score d else [])) [name].
Proof.
  destruct b; [apply entry_of_names | apply subseq_nil_l].
Qed.

Lemma momentum_entries_names (p : Provider) (t : ticker) :
  subseq (map signal_name (momentum_entries (check_price_momentum p t)))
         [PriceMomentum; PriceMomentum].
Proof.
  unfold check_price_momentum.
  destruct (history_1mo p t) as [hist |]; cbn [bind try_except];
    [| apply subseq_nil_l].
  destruct (5 <? len hist); [| apply subseq_nil_l].
  pose proof (momentum_rules_values (pct_change_of hist)
                                    (pct_from_high_of hist)) as H.
  destruct (momentum_rules _ _) as [score sigs].
  destruct H as [_ [Hl _]].
  unfold momentum_entries. cbn [mom_score mom_signals get].
  destruct (0 <? score); [| apply subseq_nil_l].
  destruct sigs as [| d1 [| d2 [| d3 sigs]]]; cbn in Hl |- *.
  - apply subseq_nil_l.
  - apply subseq_take, subseq_nil_l.
  - apply subseq_refl.
  - lia.
Qed.

(** The signals of an analysis follow the order of evaluation: ESP,
    insider, analyst, up to two momentum entries, beat rate, sector; each
    of the others at most once, so at most seven in all. *)
Theorem signals_in_evaluation_order (now : timestamp) (p : Provider)
  (c : Candidate) :
  let a := analysis_of now p c in
  analyze_stock now p c = Ok a
  /\ subseq (map signal_name (signals a)) evaluation_order
  /\ (List.length (signals a) <= 7)%nat.
Proof.
  cbv zeta. split; [apply analyze_stock_eq |].
  assert (H : subseq (map signal_name (signals (analysis_of now p c)))
                     evaluation_order).
  { unfold analysis_of. cbv zeta. cbn [signals]. unfold displayed.
    cbn [evaluate ev_esp ev_insider ev_analyst ev_momentum ev_history
         ev_sector].
    rewrite !map_app.
    change evaluation_order
      with ([EarningsESP] ++ [InsiderActivity] ++ [AnalystActivity]
            ++ [PriceMomentum; PriceMomentum] ++ [HistoricalBeatRate]
            ++ [SectorMomentum]).
    repeat apply subseq_app.
    - apply guarded_entry_names.
    - apply entry_of_names.
    - apply guarded_entry_names.
    - apply momentum_entries_names.
    - apply entry_of_names.
    - apply guarded_entry_names. }
  split; [exact H |].
  apply subseq_length in H. rewrite length_map in H. exact H.
Qed.

Lemma sum_displayed_map (name : SignalName) (score : Z) (ds : list Detail) :
  sum_displayed (map (fun d => (name, score, d)) ds) = len ds * score.
Proof.
  unfold sum_displayed, len.
  induction ds as [| d ds IH]; [reflexivity |].
  cbn [map fold_right List.length]. rewrite IH.
  unfold signal_score. cbn [fst snd]. lia.
Qed.

Lemma momentum_entries_sum (p : Provider) (t : ticker) :
  let m := check_price_momentum p t in
  sum_displayed (momentum_entries m)
  = mom_score m + mom_score m * Z.max 0 (len (momentum_entries m) - 1).
Proof.
  cbv zeta. unfold check_price_momentum.
  destruct (history_1mo p t) as [hist |]; cbn [bind try_except];
    [| reflexivity].
  destruct (5 <? len hist); [| reflexivity].
  pose proof (momentum_rules_values (pct_change_of hist)
                                    (pct_from_high_of hist)) as H.
  destruct (momentum_rules _ _) as [score sigs].
  destruct H as [Hv [_ [_ He]]].
  assert (Hs : 0 <= score) by (cbn in Hv; intuition lia).
  unfold momentum_entries. cbn [mom_score mom_signals get].
  destruct (0 <? score) eqn:E.
  - apply Z.ltb_lt in E. rewrite sum_displayed_map.
    unfold len. rewrite length_map.
    destruct sigs as [| d sigs]; [pose proof (proj1 He eq_refl); lia |].
    cbn [List.length]. rewrite Nat2Z.inj_succ.
    rewrite Z.max_r by lia. ring.
  - apply Z.ltb_ge in E. replace score with 0 by lia. reflexivity.
Qed.

(** With revision counts that are not negative, the scores shown next to
    the signals add up to the total plus one extra momentum score for each
    momentum entry beyond the first: they add up to the total exactly when
    momentum is listed at most once. *)
Theorem displayed_sum_formula (now : timestamp) (p : Provider)
  (c : Candidate) :
  revisions_nonneg p (c_ticker c) ->
  let a := analysis_of now p c in
  let m := check_price_momentum p (c_ticker c) in
  let extra := Z.max 0 (len (momentum_entries m) - 1) in
  analyze_stock now p c = Ok a
  /\ sum_displayed (signals a) = total_score a + mom_score m * extra
  /\ (len (momentum_entries m) <= 1 ->
      sum_displayed (signals a) = total_score a).
Proof.
  intros Hnn. cbv zeta. split; [apply analyze_stock_eq |].
  assert (H : sum_displayed (signals (analysis_of now p c))
              = total_score (analysis_of now p c)
                + mom_score (check_price_momentum p (c_ticker c))
                  * Z.max 0
                      (len (momentum_entries
                              (check_price_momentum p (c_ticker c))) - 1)).
  { unfold analysis_of. cbv zeta. cbn [signals total_score].
    unfold displayed.
    cbn [evaluate ev_esp ev_insider ev_analyst ev_momentum ev_history
         ev_sector].
    rewrite !sum_displayed_app.
    rewrite esp_entries_sum, insider_entries_sum, analyst_entries_sum,
      momentum_entries_sum, history_entries_sum, sector_entries_sum.
    pose proof (calculate_earnings_esp_score_nonneg p (c_ticker c) Hnn).
    lia. }
  split; [exact H |].
  intros Hk. rewrite H. rewrite Z.max_l by lia. lia.
Qed.

(** On [hot] momentum is listed twice: 160 shown against a total of 135. *)
Lemma displayed_sum_formula_witness :
  revisions_nonneg hot "NVDA"%string
  /\ sum_displayed (signals (analysis_of day100 hot nvda)) = 135 + 25 * 1.
Proof.
  assert (Hnn : revisions_nonneg hot "NVDA"%string).
  { intros tbl d Ha Hl. vm_compute in Ha. injection Ha as <-.
    vm_compute in Hl. injection Hl as <-. cbn. lia. }
  split; [exact Hnn |].
  destruct (displayed_sum_formula day100 hot nvda Hnn) as [_ [Hs _]].
  rewrite Hs. vm_compute. reflexivity.
Defined.

(** AAPL in [rich] has a consensus of 1.5, read from ['Eps Trend']; a
    provider without an analysis table gives the default. *)
Lemma esp_requires_mean_estimate_witness :
  mean_estimate (calculate_earnings_esp rich "AAPL"%string) = Some (3 # 2)
  /\ calculate_earnings_esp silent "AAPL"%string = esp_default.
Proof.
  split.
  - destruct (proj1 (proj1 (esp_requires_mean_estimate rich "AAPL"%string)))
      as [recs [tbl [q [_ [Ha [Hc [_ Hm]]]]]]]; [reflexivity |].
    rewrite Hm. vm_compute in Ha. injection Ha as <-.
    vm_compute in Hc. symmetry. exact Hc.
  - apply (proj2 (esp_requires_mean_estimate silent "AAPL"%string)).
    reflexivity.
Defined.

(** *** The duplicated momentum entry *)

Lemma signal_fields_eq (a : Analysis) :
  signal_fields a = map field_of_signal (firstn 6 (signals a)).
Proof. reflexivity. Qed.

Lemma entry_of_length (name : SignalName) (score : Z) (d : option Detail) :
  (List.length (entry_of name score d) <= 1)%nat.
Proof. destruct d; cbn; lia. Qed.

Lemma guarded_entry_length (b : bool) (name : SignalName) (score : Z)
  (d : option Detail) :
  (List.length (if b then entry_of name score d else []) <= 1)%nat.
Proof. destruct b; [apply entry_of_length | cbn; lia]. Qed.

Lemma firstn_six_keeps_pair {A} (before after : list A) (x y : A) :
  (List.length before <= 3)%nat ->
  firstn 6 (before ++ [x; y] ++ after)
  = before ++ [x; y]
    ++ firstn (6 - List.length before - 2) after.
Proof.
  intros H.
  rewrite firstn_app, (firstn_all2 before) by lia.
  f_equal.
  destruct (List.length before) as [| [| [| [| n]]]]; try lia; reflexivity.
Qed.

(** C10: when both momentum sub-signals fire (10-day change above 2%, and
    the last close within 3% of the highest high), the analysis lists two
    Price Momentum entries in a row, each labelled with the combined
    momentum score (20 or 25), after at most three other entries, while
    the total counts that score once: the displayed scores add up to at
    least the total plus the momentum score.  The alert sent for the
    analysis shows both entries among its signal fields, which take up two
    of its six places.  On [hot] this gives seven signals, and the alert's
    fields are the first six, momentum twice, then the play and the
    disclaimer: the sector signal is not shown, and the six scores shown
    add up to 145 against a total of 135. *)
Theorem momentum_entries_duplicated :
  (forall now p c hist,
      history_1mo p (c_ticker c) = Ok hist ->
      5 < len hist ->
      np_gt (pct_change_of hist) 2%Q = true ->
      np_gt (pct_from_high_of hist) (-3)%Q = true ->
      let m := check_price_momentum p (c_ticker c) in
      let up := (PriceMomentum, mom_score m, DUp10d (pct_change_of hist)) in
      let near := (PriceMomentum, mom_score m, DNearHighs) in
      exists a before after,
        analyze_stock now p c = Ok a
        /\ (mom_score m = 20 \/ mom_score m = 25)
        /\ signals a = before ++ [up; near] ++ after
        /\ existsb is_momentum (before ++ after) = false
        /\ (List.length before <= 3)%nat
        /\ total_score a + mom_score m <= sum_displayed (signals a)
        /\ total_score a < sum_displayed (signals a)
        /\ exists rest,
             al_fields (send_earnings_alert now p a)
             = map field_of_signal before
               ++ [ FSignal PriceMomentum (mom_score m)
                            (DUp10d (pct_change_of hist));
                    FSignal PriceMomentum (mom_score m) DNearHighs ]
               ++ rest
             /\ (List.length (filter is_signal_field rest)
                 <= 4 - List.length before)%nat)
  /\ (let a := analysis_of day100 hot nvda in
      let alert := send_earnings_alert day100 hot a in
      analyze_stock day100 hot nvda = Ok a
      /\ total_score a = 135
      /\ al_score alert = 135
      /\ sum_displayed (signals a) = 160
      /\ map signal_name (signals a)
         = [ EarningsESP; InsiderActivity; AnalystActivity; PriceMomentum;
             PriceMomentum; HistoricalBeatRate; SectorMomentum ]
      /\ map field_label (al_fields alert)
         = [ Some (EarningsESP, 30); Some (InsiderActivity, 25);
             Some (AnalystActivity, 20); Some (PriceMomentum, 25);
             Some (PriceMomentum, 25); Some (HistoricalBeatRate, 20);
             None; None ]
      /\ map is_play_field (al_fields alert)
         = [false; false; false; false; false; false; true; false]
      /\ last (al_fields alert) FDisclaimer = FDisclaimer).
Proof.
  split.
  - intros now p c hist Hh Hl Hc Hn. cbv zeta.
    destruct (check_price_momentum_both p (c_ticker c) hist Hh Hl Hc Hn)
      as [Hs He].
    set (e := evaluate now p c).
    set (before := esp_entries (ev_esp e) ++ insider_entries (ev_insider e)
                   ++ analyst_entries (ev_analyst e)).
    set (after := history_entries (ev_history e)
                  ++ sector_entries (ev_sector e)).
    exists (analysis_of now p c), before, after.
    split; [apply analyze_stock_eq |].
    split; [destruct (np_gt (pct_change_of hist) 5); auto |].
    assert (Hsig : signals (analysis_of now p c)
                   = before
                     ++ [ (PriceMomentum,
                           mom_score (check_price_momentum p (c_ticker c)),
                           DUp10d (pct_change_of hist));
                          (PriceMomentum,
                           mom_score (check_price_momentum p (c_ticker c)),
                           DNearHighs) ]
                     ++ after).
    { unfold analysis_of. cbv zeta. cbn [signals]. unfold displayed.
      fold e. rewrite <- He. subst before after e.
      cbn [evaluate ev_esp ev_insider ev_analyst ev_momentum ev_history
           ev_sector].
      now rewrite <- !app_assoc. }
    assert (Hb : (List.length before <= 3)%nat).
    { subst before. rewrite !length_app.
      pose proof (guarded_entry_length
                    (0 <? esp_score (ev_esp e)) EarningsESP
                    (esp_score (ev_esp e))
                    (option_map DStrength (signal_strength (ev_esp e)))).
      pose proof (entry_of_length InsiderActivity
                    (ins_score (ev_insider e)) (ins_signal (ev_insider e))).
      pose proof (guarded_entry_length
                    (0 <? ana_score (ev_analyst e)) AnalystActivity
                    (ana_score (ev_analyst e)) (ana_signal (ev_analyst e))).
      unfold esp_entries, insider_entries, analyst_entries. lia. }
    split; [exact Hsig |].
    split.
    { rewrite !existsb_app. subst before after.
      rewrite !existsb_app.
      unfold esp_entries, insider_entries, analyst_entries, history_entries,
        sector_entries.
      repeat match goal with
             | |- context [if ?b then _ else _] => destruct b
             end;
        rewrite ?entry_of_name; cbn; auto;
        intros s Hname; unfold is_momentum; now rewrite Hname. }
    split; [exact Hb |].
    assert (Hsum : sum_displayed (signals (analysis_of now p c))
                   = total_score (analysis_of now p c)
                     + (Z.max 0 (esp_score (ev_esp e)) - esp_score (ev_esp e))
                     + mom_score (check_price_momentum p (c_ticker c))).
    { rewrite Hsig. subst before after. rewrite !sum_displayed_app.
      subst e. cbn [evaluate ev_esp ev_insider ev_analyst ev_momentum
                              ev_history ev_sector].
      rewrite esp_entries_sum, insider_entries_sum, analyst_entries_sum,
        history_entries_sum, sector_entries_sum.
      unfold analysis_of. cbv zeta. cbn [total_score].
      cbn [evaluate ev_esp ev_insider ev_analyst ev_momentum
                    ev_history ev_sector].
      unfold sum_displayed, signal_score. cbn. lia. }
    assert (Hpos : 0 < mom_score (check_price_momentum p (c_ticker c)))
      by (rewrite Hs; destruct (np_gt (pct_change_of hist) 5); lia).
    split; [rewrite Hsum; lia |].
    split; [rewrite Hsum; lia |].
    exists (map field_of_signal
                (firstn (6 - List.length before - 2) after)
            ++ play_fields p (a_ticker (analysis_of now p c))
                           (total_score (analysis_of now p c))
            ++ [FDisclaimer]).
    split.
    { rewrite al_fields_eq, signal_fields_eq, Hsig.
      rewrite (firstn_six_keeps_pair _ _ _ _ Hb).
      rewrite !map_app. cbn [map field_of_signal].
      now rewrite <- !app_assoc. }
    rewrite !filter_app, !length_app.
    assert (H1 : (List.length
                    (filter is_signal_field
                       (map field_of_signal
                            (firstn (6 - List.length before - 2) after)))
                  <= 4 - List.length before)%nat).
    { eapply Nat.le_trans; [apply filter_length_le |].
      rewrite length_map, length_firstn. lia. }
    assert (H2 : filter is_signal_field
                   (play_fields p (a_ticker (analysis_of now p c))
                                (total_score (analysis_of now p c)))
                 = []).
    { destruct (play_fields_cases p (a_ticker (analysis_of now p c))
                  (total_score (analysis_of now p c)))
        as [-> | [price [computed [_ [_ ->]]]]]; reflexivity. }
    rewrite H2. cbn [filter is_signal_field List.length Nat.add].
    rewrite Nat.add_0_r. exact H1.
  - cbv zeta.
    split; [apply analyze_stock_eq |].
    repeat split; vm_compute; reflexivity.
Qed.

(** [hot] has both momentum sub-signals: 10% in ten days, at the high. *)
Lemma momentum_entries_duplicated_witness :
  exists a,
    analyze_stock day100 hot nvda = Ok a
    /\ total_score a < sum_displayed (signals a)
    /\ In (FSignal PriceMomentum 25 DNearHighs)
          (al_fields (send_earnings_alert day100 hot a)).
Proof.
  destruct (proj1 momentum_entries_duplicated day100 hot nvda nvda_month)
    as [a [before [after [Ha [_ [_ [_ [_ [_ [Hlt [rest [Hf _]]]]]]]]]]]];
    [reflexivity | vm_compute; reflexivity | vm_compute; reflexivity
     | vm_compute; reflexivity |].
  exists a. split; [exact Ha |]. split; [exact Hlt |].
  rewrite Hf. apply in_or_app. right.
  replace (mom_score (check_price_momentum hot (c_ticker nvda))) with 25
    by (vm_compute; reflexivity).
  right. left. reflexivity.
Defined.
